(** * Flora/fauna scanner: the scan routes and the client's upload handler

    A shallow embedding of the backend routes registered by
    [registerScansRoutes] (POST /api/scans/upload, GET /api/scans,
    GET /api/scans/:id), of the [scans] table they read and write, of the
    zod schema [analysisSchema], and of the client handler [analyzePlant]
    that consumes the upload response.

    The three adapters the routes call (object storage, the vision model
    gateway, the relational store) and the authentication collaborator are
    external: their answers are supplied by an environment record, and every
    call the route makes is recorded in a trace. *)

From stdpp Require Import base tactics option list strings gmap sorting pretty.
From Stdlib Require Import ZArith NArith Lia Ascii.

Local Open Scope string_scope.
Local Open Scope Z_scope.
Local Open Scope list_scope.

(** ** JavaScript values

    Handlers return plain JavaScript objects and the client reads parsed JSON;
    both are values of this type.  [VDate] is a [Date] object (the
    [created_at] column), given by its epoch milliseconds. *)

#[warnings="-register-all"]
Inductive Value :=
| VUndefined
| VNull
| VBool (b : bool)
| VNum (n : Z)
| VStr (s : string)
| VDate (ms : Z)
| VArr (items : list Value)
| VObj (props : list (string * Value)).

(** Lookup of an own property in a property list. *)
Fixpoint lookup_prop (k : string) (props : list (string * Value)) : Value :=
  match props with
  | [] => VUndefined
  | (k', v) :: rest => if decide (k = k') then v else lookup_prop k rest
  end.

(** [o.k]: property access; a missing property reads as [undefined]. *)
Definition get (k : string) (o : Value) : Value :=
  match o with
  | VObj props => lookup_prop k props
  | _ => VUndefined
  end.

(** The names of an object's own properties, in order. *)
Definition keys (o : Value) : list string :=
  match o with
  | VObj props => map fst props
  | _ => []
  end.

(** [{...o, k: v}]: the spread keeps the position of an existing key and
    appends a new one. *)
Fixpoint assign_prop (k : string) (v : Value) (props : list (string * Value))
  : list (string * Value) :=
  match props with
  | [] => [(k, v)]
  | (k', v') :: rest =>
      if decide (k = k') then (k, v) :: rest else (k', v') :: assign_prop k v rest
  end.

Definition spread_with (o : Value) (k : string) (v : Value) : Value :=
  match o with
  | VObj props => VObj (assign_prop k v props)
  | _ => VObj [(k, v)]
  end.

(** JavaScript truthiness: [undefined], [null], [false], [0] and the empty
    string are falsy; every object is truthy. *)
Definition truthy (v : Value) : bool :=
  match v with
  | VUndefined | VNull => false
  | VBool b => b
  | VNum n => negb (n =? 0)
  | VStr s => negb (bool_decide (s = ""))
  | VDate _ | VArr _ | VObj _ => true
  end.

(** [a || b] *)
Definition js_or (a b : Value) : Value := if truthy a then a else b.

(** ** The analysis schema *)

Inductive Confidence := high | medium | low.

Definition confidence_text (c : Confidence) : string :=
  match c with
  | high => "high"
  | medium => "medium"
  | low => "low"
  end.

(** The type zod infers from [analysisSchema]. *)
Record Analysis := {
  species : string;
  commonName : string;
  isSafeToEat : bool;
  isSafeToTouch : bool;
  confidence : Confidence;
  warnings : string;
  description : string;
}.

(** [z.string()] *)
Definition z_string (v : Value) : option string :=
  match v with VStr s => Some s | _ => None end.

(** [z.boolean()] *)
Definition z_boolean (v : Value) : option bool :=
  match v with VBool b => Some b | _ => None end.

(** [z.enum(['high', 'medium', 'low'])] *)
Definition z_enum_confidence (v : Value) : option Confidence :=
  match v with
  | VStr s =>
      if decide (s = "high") then Some high
      else if decide (s = "medium") then Some medium
      else if decide (s = "low") then Some low
      else None
  | _ => None
  end.

(** [analysisSchema]: a [z.object] of seven required fields.  Parsing accepts
    an object whose seven fields have the declared types and drops every
    other key of the input. *)
Definition analysisSchema (input : Value) : option Analysis :=
  match input with
  | VObj _ =>
      sp ← z_string (get "species" input);
      cn ← z_string (get "commonName" input);
      eat ← z_boolean (get "isSafeToEat" input);
      touch ← z_boolean (get "isSafeToTouch" input);
      conf ← z_enum_confidence (get "confidence" input);
      warn ← z_string (get "warnings" input);
      desc ← z_string (get "description" input);
      Some {| species := sp; commonName := cn; isSafeToEat := eat;
              isSafeToTouch := touch; confidence := conf; warnings := warn;
              description := desc |}
  | _ => None
  end.

(** The JavaScript object behind a parsed analysis ([analysisResult.object]). *)
Definition analysis_object (a : Analysis) : Value :=
  VObj [("species", VStr (species a));
        ("commonName", VStr (commonName a));
        ("isSafeToEat", VBool (isSafeToEat a));
        ("isSafeToTouch", VBool (isSafeToTouch a));
        ("confidence", VStr (confidence_text (confidence a)));
        ("warnings", VStr (warnings a));
        ("description", VStr (description a))].

(** ** The [scans] table *)

(** [id: uuid('id')]: the column holds uuids, and a text compared with it is
    first read as a uuid.  [uuid_in text] is that reading: nothing when the
    text is not a uuid (the database then refuses the query), and otherwise
    the uuid in the spelling in which the database prints it, so that two
    texts spell the same uuid exactly when they read the same.  The database
    is not among the sources; its reading is a parameter of the
    development. *)
Class UuidSyntax := uuid_in : string -> option string.

(** A row of [scans], as the query API returns it; [scan_id] is the [uuid]
    primary key, in the spelling the database prints, and [scan_createdAt]
    the [created_at] timestamp in epoch milliseconds. *)
Record Scan := {
  scan_id : string;
  scan_userId : string;
  scan_imageUrl : string;
  scan_imageKey : string;
  scan_species : string;
  scan_commonName : string;
  scan_isSafeToEat : bool;
  scan_isSafeToTouch : bool;
  scan_confidence : Confidence;
  scan_warnings : string;
  scan_description : string;
  scan_createdAt : Z;
}.

(** The column names of the table, as the query API spells them. *)
Definition scan_columns : list string :=
  ["id"; "userId"; "imageUrl"; "imageKey"; "species"; "commonName";
   "isSafeToEat"; "isSafeToTouch"; "confidence"; "warnings"; "description";
   "createdAt"].

(** The object the query API returns for a row. *)
Definition scan_object (s : Scan) : Value :=
  VObj [("id", VStr (scan_id s));
        ("userId", VStr (scan_userId s));
        ("imageUrl", VStr (scan_imageUrl s));
        ("imageKey", VStr (scan_imageKey s));
        ("species", VStr (scan_species s));
        ("commonName", VStr (scan_commonName s));
        ("isSafeToEat", VBool (scan_isSafeToEat s));
        ("isSafeToTouch", VBool (scan_isSafeToTouch s));
        ("confidence", VStr (confidence_text (scan_confidence s)));
        ("warnings", VStr (scan_warnings s));
        ("description", VStr (scan_description s));
        ("createdAt", VDate (scan_createdAt s))].

(** The values of an insert: [id] and [createdAt] are left to their column
    defaults. *)
Record NewScan := {
  new_userId : string;
  new_imageUrl : string;
  new_imageKey : string;
  new_species : string;
  new_commonName : string;
  new_isSafeToEat : bool;
  new_isSafeToTouch : bool;
  new_confidence : Confidence;
  new_warnings : string;
  new_description : string;
}.

(** [desc(schema.scans.createdAt)]: [a] may come before [b]. *)
Definition created_desc (a b : Scan) : Prop := scan_createdAt b <= scan_createdAt a.

#[global] Instance created_desc_dec a b : Decision (created_desc a b).
Proof. unfold created_desc. apply _. Defined.

#[global] Instance created_desc_total : Total created_desc.
Proof. intros a b. unfold created_desc. lia. Qed.

(** [findMany({ where: eq(userId, uid), orderBy: [desc(createdAt)] })] *)
Definition select_by_user (uid : string) (table : list Scan) : list Scan :=
  merge_sort created_desc
    (filter (fun s => scan_userId s = uid) table).

(** The first row whose id is the uuid [u], given in the spelling the
    database prints. *)
Definition select_by_id (u : string) (table : list Scan) : option Scan :=
  List.find (fun s => bool_decide (scan_id s = u)) table.

(** ** Sessions, requests and replies *)

Record Session := { user_id : string }.

(** What a handler leaves on the wire: a reply with a status and a body
    ([return value] sends it with status 200), or nothing of its own because
    the authentication collaborator has already answered. *)
Inductive Reply :=
| Send (status : N) (body : Value)
| AuthReplied.

(** [{ error: msg }] *)
Definition error_body (msg : string) : Value := VObj [("error", VStr msg)].

Inductive Level := info | warn | error.

(** The failures a handler can be left with. *)
Inductive Failure :=
| StorageFailure
| ModelFailure
| NoObjectGenerated
| DatabaseFailure
| UniqueViolation
| InvalidTextRepresentation
| InvalidMultipartContentType.

Inductive Result (A : Type) :=
| Ok (a : A)
| Throw (e : Failure).
Arguments Ok {A} a.
Arguments Throw {A} e.

(** [limits: { fileSize: 10 * 1024 * 1024 }] *)
Definition fileSizeLimit : N := 10 * 1024 * 1024.

(** The byte buffers of the runtime: the routes only measure them, hand them
    to the storage adapter and encode them for the model. *)
Class BufferOps (Buffer : Type) := {
  byteLength : Buffer -> N;
  toBase64 : Buffer -> string;
}.

Section Backend.
Context {Buffer : Type} `{!BufferOps Buffer} `{!UuidSyntax}.

(** A multipart file part. *)
Record FilePart := {
  filename : string;
  mimetype : string;
  content : Buffer;
}.

(** The body of a request: a multipart form, with its first file part if it
    has one, or anything else. *)
Inductive Body :=
| Multipart (file : option FilePart)
| NotMultipart.

(** An incoming request: the session the authentication collaborator
    resolves for it (if any), its body, and the [:id] route parameter. *)
Record Request := {
  req_session : option Session;
  req_body : Body;
  req_id : string;
}.

(** The calls a route makes to its external collaborators. *)
Inductive Call :=
| StorageUpload (key : string) (buffer : Buffer)
| StorageGetSignedUrl (key : string)
| GenerateObject (base64 mimeType : string)
| DbInsert (values : NewScan)
| DbFindMany (userId : string)
| DbFindFirst (id : string).

(** What is observed of a handler run: log lines, and the start and the
    end of every external call ([ok] tells whether it returned or threw). *)
Inductive Event :=
| EvLog (lvl : Level) (msg : string)
| EvBegin (c : Call)
| EvEnd (c : Call) (ok : bool).

(** The world a handler runs in: the stored objects, the rows of [scans],
    the clock, and the events so far (oldest first). *)
Record World := {
  objects : gmap string Buffer;
  rows : list Scan;
  now : Z;
  trace : list Event;
}.

(** How the collaborators answer.  [fault c] tells that call [c] throws;
    the other fields give the answer of a call that does not.  The id of a
    new row ([defaultRandom()]) is a uuid, which the database prints in the
    spelling it reads back as that uuid. *)
Record Env := {
  fault : Call -> bool;
  stored_key : string -> string;
  signed_url : Z -> string -> string;
  model_output : string -> string -> Value;
  random_uuid : list Scan -> string;
  random_uuid_read : forall table,
    uuid_in (random_uuid table) = Some (random_uuid table);
}.

Variable env : Env.

(** *** Asynchronous computations

    An [async] body is run to completion on a world; each [await] is a
    [bind], so a call is started only when the one before it has ended. *)
Definition Async (A : Type) : Type := World -> Result A * World.

Definition ret {A} (a : A) : Async A := fun w => (Ok a, w).

Definition throw {A} (e : Failure) : Async A := fun w => (Throw e, w).

Definition bind {A B} (m : Async A) (k : A -> Async B) : Async B :=
  fun w =>
    match m w with
    | (Ok a, w') => k a w'
    | (Throw e, w') => (Throw e, w')
    end.

(** [try { m } catch (error) { handler error }] *)
Definition try_catch {A} (m : Async A) (handler : Failure -> Async A) : Async A :=
  fun w =>
    match m w with
    | (Ok a, w') => (Ok a, w')
    | (Throw e, w') => handler e w'
    end.

Definition emit (e : Event) (w : World) : World :=
  {| objects := objects w; rows := rows w; now := now w;
     trace := trace w ++ [e] |}.

Definition set_objects (o : gmap string Buffer) (w : World) : World :=
  {| objects := o; rows := rows w; now := now w; trace := trace w |}.

Definition set_rows (r : list Scan) (w : World) : World :=
  {| objects := objects w; rows := r; now := now w; trace := trace w |}.

(** [app.logger.info / warn / error] *)
Definition logger (lvl : Level) (msg : string) : Async unit :=
  fun w => (Ok tt, emit (EvLog lvl msg) w).

(** [Date.now()] *)
Definition Date_now : Async Z := fun w => (Ok (now w), w).

(** An awaited call to a collaborator: it begins, then either throws
    (when the environment says so, or when [run] does) or ends with the
    answer of [run]. *)
Definition external {A} (c : Call) (e : Failure)
    (run : World -> Result A * World) : Async A :=
  fun w =>
    let w1 := emit (EvBegin c) w in
    if fault env c then (Throw e, emit (EvEnd c false) w1)
    else
      match run w1 with
      | (Ok a, w2) => (Ok a, emit (EvEnd c true) w2)
      | (Throw e', w2) => (Throw e', emit (EvEnd c false) w2)
      end.

(** *** The collaborators *)

(** [app.requireAuth()]: the session of the request, or nothing once the
    collaborator has answered the request itself. *)
Definition requireAuth (request : Request) : option Session :=
  req_session request.

(** [request.file({ limits: { fileSize } })], of the multipart plugin: the
    first file part of a multipart form, [undefined] when the form has
    none; for a request that is not multipart the call rejects. *)
Definition request_file (request : Request) : Result (option FilePart) :=
  match req_body request with
  | Multipart file => Ok file
  | NotMultipart => Throw InvalidMultipartContentType
  end.

(** Modelled from the spec: [data.toBuffer()] belongs to the multipart
    plugin, which is not among the sources; reading the file part beyond
    the cap fails, and a part within the cap is read whole. *)
Definition toBuffer (limit : N) (data : FilePart) : option Buffer :=
  if (limit <? byteLength (content data))%N then None
  else Some (content data).

(** [app.storage.upload(key, buffer)]: the object is kept under the durable
    key the adapter answers with. *)
Definition storage_upload (key : string) (buffer : Buffer) : Async string :=
  external (StorageUpload key buffer) StorageFailure
    (fun w =>
       let uploadedKey := stored_key env key in
       (Ok uploadedKey, set_objects (<[uploadedKey := buffer]> (objects w)) w)).

(** [app.storage.getSignedUrl(key)]: a link signed at the current time. *)
Definition storage_getSignedUrl (key : string) : Async string :=
  external (StorageGetSignedUrl key) StorageFailure
    (fun w => (Ok (signed_url env (now w) key), w)).

(** [generateObject({ model, schema: analysisSchema, messages })]: the
    model's answer is validated against the schema; an answer that does
    not validate is thrown away and the call throws. *)
Definition generateObject (base64 mimeType : string) : Async Analysis :=
  external (GenerateObject base64 mimeType) ModelFailure
    (fun w =>
       match analysisSchema (model_output env base64 mimeType) with
       | Some object => (Ok object, w)
       | None => (Throw NoObjectGenerated, w)
       end).

(** The row an insert creates: [id] defaults to a random uuid and
    [createdAt] to the current time. *)
Definition new_row (values : NewScan) (w : World) : Scan :=
  {| scan_id := random_uuid env (rows w);
     scan_userId := new_userId values;
     scan_imageUrl := new_imageUrl values;
     scan_imageKey := new_imageKey values;
     scan_species := new_species values;
     scan_commonName := new_commonName values;
     scan_isSafeToEat := new_isSafeToEat values;
     scan_isSafeToTouch := new_isSafeToTouch values;
     scan_confidence := new_confidence values;
     scan_warnings := new_warnings values;
     scan_description := new_description values;
     scan_createdAt := now w |}.

(** [app.db.insert(schema.scans).values(values).returning()]: [id] is the
    primary key, so a row whose id is taken is refused. *)
Definition db_insert (values : NewScan) : Async Scan :=
  external (DbInsert values) DatabaseFailure
    (fun w =>
       let scan := new_row values w in
       if bool_decide (scan_id scan ∈ map scan_id (rows w))
       then (Throw UniqueViolation, w)
       else (Ok scan, set_rows (rows w ++ [scan]) w)).

(** [app.db.query.scans.findMany({ where, orderBy })] *)
Definition db_findMany (userId : string) : Async (list Scan) :=
  external (DbFindMany userId) DatabaseFailure
    (fun w => (Ok (select_by_user userId (rows w)), w)).

(** [app.db.query.scans.findFirst({ where: eq(schema.scans.id, id) })]:
    the text [id] is read as a uuid; the query fails when it is none, and
    otherwise answers with the row of that uuid, however [id] spells it. *)
Definition db_findFirst (id : string) : Async (option Scan) :=
  external (DbFindFirst id) DatabaseFailure
    (fun w =>
       match uuid_in id with
       | None => (Throw InvalidTextRepresentation, w)
       | Some u => (Ok (select_by_id u (rows w)), w)
       end).

(** *** The routes *)

Notation "'let!' x ':=' m 'in' k" := (bind m (fun x => k))
  (at level 10, x name, m at level 100, k at level 200, only parsing).
Notation "m ';;;' k" := (bind m (fun _ => k))
  (at level 100, k at level 200, right associativity, only parsing).

(** [`scans/${session.user.id}/${Date.now()}-${data.filename}`] *)
Definition upload_key (session : Session) (t : Z) (data : FilePart) : string :=
  "scans/" +:+ user_id session +:+ "/" +:+ pretty t +:+ "-" +:+ filename data.

(** [data.mimetype || 'image/jpeg'] *)
Definition mime_or_default (data : FilePart) : string :=
  if bool_decide (mimetype data = "") then "image/jpeg" else mimetype data.

(** The values the upload route inserts. *)
Definition scan_values (session : Session) (url uploadedKey : string)
    (object : Analysis) : NewScan :=
  {| new_userId := user_id session;
     new_imageUrl := url;
     new_imageKey := uploadedKey;
     new_species := species object;
     new_commonName := commonName object;
     new_isSafeToEat := isSafeToEat object;
     new_isSafeToTouch := isSafeToTouch object;
     new_confidence := confidence object;
     new_warnings := warnings object;
     new_description := description object |}.

(** [{ scanId: scan.id, imageUrl: url, analysis: analysisResult.object }] *)
Definition upload_response (scan : Scan) (url : string) (object : Analysis)
  : Value :=
  VObj [("scanId", VStr (scan_id scan));
        ("imageUrl", VStr url);
        ("analysis", analysis_object object)].

(** POST /api/scans/upload *)
Definition upload_route (request : Request) : Async Reply :=
  match requireAuth request with
  | None => ret AuthReplied
  | Some session =>
      logger info "Starting image upload and analysis" ;;;
      try_catch
        (match request_file request with
         | Throw e => throw e
         | Ok None =>
             logger warn "No file provided" ;;;
             ret (Send 400 (error_body "No file provided"))
         | Ok (Some data) =>
             match toBuffer fileSizeLimit data with
             | None =>
                 logger warn "File size limit exceeded" ;;;
                 ret (Send 413 (error_body "File too large"))
             | Some buffer =>
                 let! t := Date_now in
                 let key := upload_key session t data in
                 logger info "Uploading file to storage" ;;;
                 let! uploadedKey := storage_upload key buffer in
                 let! url := storage_getSignedUrl uploadedKey in
                 logger info "Analyzing image with AI" ;;;
                 let base64 := toBase64 buffer in
                 let mimeType := mime_or_default data in
                 let! object := generateObject base64 mimeType in
                 logger info "AI analysis completed" ;;;
                 let! scan := db_insert (scan_values session url uploadedKey object) in
                 logger info "Scan saved to database" ;;;
                 ret (Send 200 (upload_response scan url object))
             end
         end)
        (fun e =>
           logger error "Failed to upload and analyze image" ;;;
           throw e)
  end.

(** GET /api/scans *)
Definition list_route (request : Request) : Async Reply :=
  match requireAuth request with
  | None => ret AuthReplied
  | Some session =>
      logger info "Retrieving user scans" ;;;
      try_catch
        (let! scans := db_findMany (user_id session) in
         logger info "Scans retrieved successfully" ;;;
         ret (Send 200 (VArr (map scan_object scans))))
        (fun e =>
           logger error "Failed to retrieve scans" ;;;
           throw e)
  end.

(** GET /api/scans/:id *)
Definition get_route (request : Request) : Async Reply :=
  match requireAuth request with
  | None => ret AuthReplied
  | Some session =>
      let id := req_id request in
      logger info "Retrieving scan details" ;;;
      try_catch
        (let! found := db_findFirst id in
         match found with
         | None =>
             logger warn "Scan not found" ;;;
             ret (Send 404 (error_body "Scan not found"))
         | Some scan =>
             if bool_decide (scan_userId scan ≠ user_id session) then
               logger warn "Unauthorized access to scan" ;;;
               ret (Send 403 (error_body "Unauthorized"))
             else
               let! url := storage_getSignedUrl (scan_imageKey scan) in
               logger info "Scan retrieved successfully" ;;;
               ret (Send 200 (spread_with (scan_object scan) "imageUrl" (VStr url)))
         end)
        (fun e =>
           logger error "Failed to retrieve scan" ;;;
           throw e)
  end.
End Backend.

Arguments FilePart : clear implicits.
Arguments Body : clear implicits.
Arguments Request : clear implicits.
Arguments Call : clear implicits.
Arguments Event : clear implicits.
Arguments World : clear implicits.
Arguments Env Buffer {_}.
Arguments Multipart {Buffer} file.
Arguments NotMultipart {Buffer}.
Arguments upload_key {Buffer} session t data : simpl never.

(** ** The client: [HomeScreen] and its [analyzePlant] handler *)

(** The client's [ScanResult], with the values its fields hold at run time. *)
Record ScanResult := {
  res_scanId : Value;
  res_species : Value;
  res_commonName : Value;
  res_isSafeToEat : Value;
  res_isSafeToTouch : Value;
  res_confidence : Value;
  res_warnings : Value;
  res_description : Value;
  res_imageUrl : Value;
}.

(** What the handler's [catch] receives: the error thrown for a response
    that is not ok, a rejected [fetch], or the [TypeError] of reading a
    property of [null]. *)
Inductive ClientError :=
| UploadFailed (status : N)
| FetchRejected (message : string)
| TypeError.

(** The alerts the handler raises. *)
Inductive Alert :=
| AuthenticationRequired
| ErrorAlert (e : ClientError).

(** The state of the screen: the picked image, the signed-in user, the
    progress flag, the result on display, and the last alert shown. *)
Record HomeScreen := {
  selectedImage : option string;
  user : option string;
  isAnalyzing : bool;
  scanResult : option ScanResult;
  alert : option Alert;
}.

(** The file object appended to the form data. *)
Record FormFile := {
  form_uri : string;
  form_type : string;
  form_name : string;
}.

(** What [fetch] resolves or rejects with. *)
Inductive FetchResult :=
| Responded (status : N) (body : Value)
| NetworkError (message : string).

(** [uploadResponse.ok] *)
Definition response_ok (status : N) : bool :=
  ((200 <=? status) && (status <=? 299))%N.

(** The last element of [uri.split('.')]. *)
Fixpoint last_segment (uri : string) (segment : string) : string :=
  match uri with
  | EmptyString => segment
  | String c rest =>
      if decide (c = "."%char) then last_segment rest ""
      else last_segment rest (segment +:+ String c "")
  end.

Definition form_file (uri : string) : FormFile :=
  let fileType := last_segment uri "" in
  {| form_uri := uri;
     form_type := "image/" +:+ fileType;
     form_name := "scan." +:+ fileType |}.

(** The [ScanResult] built from the parsed response body. *)
Definition scan_result_of (uploadData : Value) (selected : string) : ScanResult :=
  {| res_scanId := js_or (get "id" uploadData) (get "scanId" uploadData);
     res_species := js_or (get "species" uploadData) (VStr "Unknown");
     res_commonName := js_or (get "commonName" uploadData) (VStr "Unknown");
     res_isSafeToEat := js_or (get "isSafeToEat" uploadData) (VBool false);
     res_isSafeToTouch := js_or (get "isSafeToTouch" uploadData) (VBool false);
     res_confidence := js_or (get "confidence" uploadData) (VStr "low");
     res_warnings := js_or (get "warnings" uploadData) (VStr "");
     res_description :=
       js_or (get "description" uploadData) (VStr "No description available");
     res_imageUrl := js_or (get "imageUrl" uploadData) (VStr selected) |}.

Definition show_result (r : option ScanResult) (a : option Alert)
    (screen : HomeScreen) : HomeScreen :=
  {| selectedImage := selectedImage screen;
     user := user screen;
     isAnalyzing := false;
     scanResult := r;
     alert := a |}.

(** [analyzePlant]: [fetch] stands for the POST of the form to
    /api/scans/upload.  Reading a property of a [null] body throws, like a
    failed request, into the handler's [catch]. *)
Definition analyzePlant (fetch : FormFile -> FetchResult) (screen : HomeScreen)
  : HomeScreen :=
  match selectedImage screen with
  | None => screen
  | Some selected =>
      if bool_decide (selected = "") then screen
      else
        match user screen with
        | None =>
            {| selectedImage := selectedImage screen;
               user := user screen;
               isAnalyzing := isAnalyzing screen;
               scanResult := scanResult screen;
               alert := Some AuthenticationRequired |}
        | Some _ =>
            match fetch (form_file selected) with
            | NetworkError message =>
                show_result None (Some (ErrorAlert (FetchRejected message))) screen
            | Responded status uploadData =>
                if negb (response_ok status) then
                  show_result None (Some (ErrorAlert (UploadFailed status))) screen
                else
                  match uploadData with
                  | VNull | VUndefined =>
                      show_result None (Some (ErrorAlert TypeError)) screen
                  | _ =>
                      show_result (Some (scan_result_of uploadData selected))
                        (alert screen) screen
                  end
            end
        end
  end.

(** ** Vocabulary of the properties *)

(** The external calls begun in a stretch of trace, in order. *)
Definition calls_begun {Buffer} (t : list (Event Buffer)) : list (Call Buffer) :=
  omap (fun e => match e with EvBegin c => Some c | _ => None end) t.

(** The starts and ends of external calls in a stretch of trace, without the
    log lines. *)
Definition call_events {Buffer} (t : list (Event Buffer)) : list (Event Buffer) :=
  List.filter (fun e => match e with EvLog _ _ => false | _ => true end) t.

(** [a] occurs in [t] strictly before [b]. *)
Definition before {A} (a b : A) (t : list A) : Prop :=
  exists t1 t2 t3, t = t1 ++ a :: t2 ++ b :: t3.

(** The schema as the interface states it: exactly the seven fields, three
    confidence levels, two booleans. *)
Definition is_text (v : Value) : bool :=
  match v with VStr _ => true | _ => false end.

Definition is_boolean (v : Value) : bool :=
  match v with VBool _ => true | _ => false end.

Definition is_confidence (v : Value) : bool :=
  match v with
  | VStr s => bool_decide (s ∈ ["high"; "medium"; "low"])
  | _ => false
  end.

Definition analysis_fields : list string :=
  ["species"; "commonName"; "isSafeToEat"; "isSafeToTouch"; "confidence";
   "warnings"; "description"].

Definition validates (analysis : Value) : bool :=
  bool_decide (keys analysis = analysis_fields)
  && is_text (get "species" analysis)
  && is_text (get "commonName" analysis)
  && is_boolean (get "isSafeToEat" analysis)
  && is_boolean (get "isSafeToTouch" analysis)
  && is_confidence (get "confidence" analysis)
  && is_text (get "warnings" analysis)
  && is_text (get "description" analysis).

(** The calls of one upload, for a session [s], a file part [data] and the
    world [w] the request arrives in. *)
Section UploadCalls.
Context {Buffer : Type} `{!BufferOps Buffer} `{!UuidSyntax} (env : Env Buffer).
Variables (s : Session) (data : FilePart Buffer) (w : World Buffer).

Definition requested_key : string := upload_key s (now w) data.

Definition durable_key : string := stored_key env requested_key.

Definition fresh_url : string := signed_url env (now w) durable_key.

Definition upload_call : Call Buffer := StorageUpload requested_key (content data).

Definition sign_call : Call Buffer := StorageGetSignedUrl durable_key.

Definition generate_call : Call Buffer :=
  GenerateObject (toBase64 (content data)) (mime_or_default data).

Definition model_answer : Value :=
  model_output env (toBase64 (content data)) (mime_or_default data).

Definition insert_call (a : Analysis) : Call Buffer :=
  DbInsert (scan_values s fresh_url durable_key a).

(** The row the upload inserts. *)
Definition inserted_row (a : Analysis) : Scan :=
  new_row env (scan_values s fresh_url durable_key a) w.

(** All adapters succeed: no call of the upload throws, the model's answer
    validates as [a], and the generated id is free. *)
Definition adapters_succeed (a : Analysis) : Prop :=
  fault env upload_call = false /\
  fault env sign_call = false /\
  fault env generate_call = false /\
  analysisSchema model_answer = Some a /\
  fault env (insert_call a) = false /\
  random_uuid env (rows w) ∉ map scan_id (rows w).

(** The analysis call fails: it throws, or its answer does not validate. *)
Definition analysis_fails : Prop :=
  fault env generate_call = true \/ analysisSchema model_answer = None.

(** The events of an upload in which every call succeeds. *)
Definition successful_upload_events (a : Analysis) : list (Event Buffer) :=
  [EvLog info "Starting image upload and analysis";
   EvLog info "Uploading file to storage";
   EvBegin upload_call; EvEnd upload_call true;
   EvBegin sign_call; EvEnd sign_call true;
   EvLog info "Analyzing image with AI";
   EvBegin generate_call; EvEnd generate_call true;
   EvLog info "AI analysis completed";
   EvBegin (insert_call a); EvEnd (insert_call a) true;
   EvLog info "Scan saved to database"].
End UploadCalls.

(** ** A concrete deployment, for examples

    Buffers are given by their size alone; the storage adapter answers with
    the key it was given, links carry their signing time, the model answers
    with a nettle, and the id of a new row ends in the number of rows so
    far.  The database reads a uuid in the usual form, 8-4-4-4-12
    hexadecimal digits in either case, and prints it in lower case. *)

Definition read_hex (c : ascii) : option ascii :=
  match c with
  | "0" | "1" | "2" | "3" | "4" | "5" | "6" | "7" | "8" | "9"
  | "a" | "b" | "c" | "d" | "e" | "f" => Some c
  | "A" => Some "a"
  | "B" => Some "b"
  | "C" => Some "c"
  | "D" => Some "d"
  | "E" => Some "e"
  | "F" => Some "f"
  | _ => None
  end%char.

(** Reads a text of the given shape ([true] for a hyphen, [false] for a
    digit). *)
Fixpoint read_uuid (shape : list bool) (text : string) : option string :=
  match shape, text with
  | [], EmptyString => Some EmptyString
  | true :: shape', String "-" rest => String "-"%char <$> read_uuid shape' rest
  | false :: shape', String c rest =>
      match read_hex c with
      | Some d => String d <$> read_uuid shape' rest
      | None => None
      end
  | _, _ => None
  end.

Definition uuid_shape : list bool :=
  replicate 8 false ++ [true] ++ replicate 4 false ++ [true] ++
  replicate 4 false ++ [true] ++ replicate 4 false ++ [true] ++
  replicate 12 false.

#[global] Instance demo_uuids : UuidSyntax := read_uuid uuid_shape.

(** The ids of the examples differ in their last digit. *)
Definition hex_digit (n : nat) : ascii :=
  match (n mod 16)%nat with
  | 0 => "0" | 1 => "1" | 2 => "2" | 3 => "3" | 4 => "4" | 5 => "5"
  | 6 => "6" | 7 => "7" | 8 => "8" | 9 => "9" | 10 => "a" | 11 => "b"
  | 12 => "c" | 13 => "d" | 14 => "e" | _ => "f"
  end%nat%char.

Definition demo_uuid (n : nat) : string :=
  "00000000-0000-4000-8000-00000000000" +:+ String (hex_digit n) "".

Lemma demo_uuid_read n : uuid_in (demo_uuid n) = Some (demo_uuid n).
Proof.
  unfold demo_uuid, hex_digit.
  destruct (n mod 16)%nat as [|m]; [reflexivity|].
  do 14 (destruct m as [|m]; [reflexivity|]). reflexivity.
Qed.

#[global] Instance sized_buffers : BufferOps N :=
  {| byteLength := fun size => size; toBase64 := fun _ => "" |}.

Definition nettle : Value :=
  VObj [("species", VStr "Urtica dioica");
        ("commonName", VStr "Stinging nettle");
        ("isSafeToEat", VBool true);
        ("isSafeToTouch", VBool false);
        ("confidence", VStr "high");
        ("warnings", VStr "Stings on contact");
        ("description", VStr "A perennial herb");
        ("genus", VStr "Urtica")].

Definition demo_env : Env N :=
  {| fault := fun _ => false;
     stored_key := fun key => key;
     signed_url := fun t key => "https://cdn.example/" +:+ key +:+ "?t=" +:+ pretty t;
     model_output := fun _ _ => nettle;
     random_uuid := fun table => demo_uuid (length table);
     random_uuid_read := fun table => demo_uuid_read (length table) |}.

(** The same deployment with the model gateway down. *)
Definition model_down_env : Env N :=
  {| fault := fun c => match c with GenerateObject _ _ => true | _ => false end;
     stored_key := stored_key demo_env;
     signed_url := signed_url demo_env;
     model_output := model_output demo_env;
     random_uuid := random_uuid demo_env;
     random_uuid_read := random_uuid_read demo_env |}.

Definition alice : Session := {| user_id := "alice" |}.

Definition empty_world : World N :=
  {| objects := ∅; rows := []; now := 1700000000000; trace := [] |}.

Definition photo (size : N) : FilePart N :=
  {| filename := "leaf.jpg"; mimetype := "image/jpeg"; content := size |}.

Definition upload_request (s : Session) (size : N) : Request N :=
  {| req_session := Some s; req_body := Multipart (Some (photo size));
     req_id := "" |}.

(** A request whose form has no file part. *)
Definition bare_request (s : Session) (id : string) : Request N :=
  {| req_session := Some s; req_body := Multipart None; req_id := id |}.

Definition demo_scan (id owner : string) (t : Z) : Scan :=
  {| scan_id := id;
     scan_userId := owner;
     scan_imageUrl := "https://cdn.example/old/" +:+ id;
     scan_imageKey := "scans/" +:+ owner +:+ "/" +:+ id;
     scan_species := "Urtica dioica";
     scan_commonName := "Stinging nettle";
     scan_isSafeToEat := true;
     scan_isSafeToTouch := false;
     scan_confidence := high;
     scan_warnings := "";
     scan_description := "A perennial herb";
     scan_createdAt := t |}.

(** Three scans of alice and one of bob, not in order of creation. *)
Definition history_world : World N :=
  {| objects := ∅;
     rows := [demo_scan (demo_uuid 2) "alice" 20; demo_scan (demo_uuid 11) "bob" 25;
              demo_scan (demo_uuid 1) "alice" 10; demo_scan (demo_uuid 3) "alice" 30];
     now := 40;
     trace := [] |}.

(** Exactly 10 MiB + 1 byte. *)
Definition one_byte_over : N := fileSizeLimit + 1.

(** The world [w] once the clock reads [t]. *)
Definition at_time {Buffer} (t : Z) (w : World Buffer) : World Buffer :=
  {| objects := objects w; rows := rows w; now := t; trace := trace w |}.

(** The world after alice has uploaded a photo of 2048 bytes. *)
Definition after_upload : World N :=
  snd (upload_route demo_env (upload_request alice 2048) empty_world).

(** A week (in milliseconds) after that upload. *)
Definition a_week_later : World N := at_time (1700000000000 + 604800000) after_upload.

(** What the model's answer parses to. *)
Definition nettle_analysis : Analysis :=
  {| species := "Urtica dioica";
     commonName := "Stinging nettle";
     isSafeToEat := true;
     isSafeToTouch := false;
     confidence := high;
     warnings := "Stings on contact";
     description := "A perennial herb" |}.

(** The body of a 200 reply to an upload of alice's that was stored under
    [key] while the table was empty. *)
Definition nettle_reply (key : string) : Value :=
  VObj [("scanId", VStr (demo_uuid 0));
        ("imageUrl", VStr ("https://cdn.example/" +:+ key +:+ "?t=1700000000000"));
        ("analysis", analysis_object nettle_analysis)].

(** The request the client's form arrives as. *)
Definition client_request : Request N :=
  {| req_session := Some alice;
     req_body := Multipart (Some {| filename := "scan.jpg";
                                    mimetype := "image/jpg";
                                    content := 2048%N |});
     req_id := "" |}.

(** The screen of a signed-in user who has picked a photo. *)
Definition ready_screen : HomeScreen :=
  {| selectedImage := Some "file:///photos/leaf.jpg";
     user := Some "alice";
     isAnalyzing := false;
     scanResult := None;
     alert := None |}.

(** [fetch] against the backend in world [w], for a signed-in session: the
    form's file travels as the file part and the reply comes back as the
    response; a thrown failure surfaces as a 500 and an unauthenticated
    request as a 401, both without a JSON object. *)
Definition fetch_from (env : Env N) (s : Session) (size : N) (w : World N)
    (file : FormFile) : FetchResult :=
  let request :=
    {| req_session := Some s;
       req_body := Multipart (Some {| filename := form_name file;
                                      mimetype := form_type file;
                                      content := size |});
       req_id := "" |} in
  match fst (upload_route env request w) with
  | Ok (Send status body) => Responded status body
  | Ok AuthReplied => Responded 401 VNull
  | Throw _ => Responded 500 VNull
  end.


(** ** Vocabulary of the properties of whole runs *)

(** The events that tell of a failure: the end of a call that threw, and an
    error log line. *)
Definition is_failure_event {Buffer} (e : Event Buffer) : bool :=
  match e with
  | EvEnd _ false => true
  | EvLog error _ => true
  | _ => false
  end.

(** The failures a call can throw. *)
Definition may_throw {Buffer} (c : Call Buffer) (e : Failure) : Prop :=
  match c with
  | StorageUpload _ _ | StorageGetSignedUrl _ => e = StorageFailure
  | GenerateObject _ _ => e = ModelFailure \/ e = NoObjectGenerated
  | DbInsert _ => e = DatabaseFailure \/ e = UniqueViolation
  | DbFindMany _ => e = DatabaseFailure
  | DbFindFirst _ => e = DatabaseFailure \/ e = InvalidTextRepresentation
  end.

(** The events of calls that all ended well. *)
Definition completed {Buffer} (cs : list (Call Buffer)) : list (Event Buffer) :=
  flat_map (fun c => [EvBegin c; EvEnd c true]) cs.

(** No event of the stretch tells of a failure. *)
Definition failure_free {Buffer} (t : list (Event Buffer)) : bool :=
  forallb (fun e => negb (is_failure_event e)) t.

(** The analysis columns of a row. *)
Definition row_analysis (r : Scan) : Analysis :=
  {| species := scan_species r;
     commonName := scan_commonName r;
     isSafeToEat := scan_isSafeToEat r;
     isSafeToTouch := scan_isSafeToTouch r;
     confidence := scan_confidence r;
     warnings := scan_warnings r;
     description := scan_description r |}.


(** The calls that only read: the two queries and the signing of a link. *)
Definition is_read_call {Buffer} (c : Call Buffer) : bool :=
  match c with
  | DbFindMany _ | DbFindFirst _ | StorageGetSignedUrl _ => true
  | StorageUpload _ _ | GenerateObject _ _ | DbInsert _ => false
  end.


(** ** The server, one request after another *)

(** A request for one of the read routes. *)
Definition scan_request {Buffer} (s : Session) (id : string) : Request Buffer :=
  {| req_session := Some s; req_body := NotMultipart; req_id := id |}.

Section Server.
Context {Buffer : Type} `{!BufferOps Buffer} `{!UuidSyntax}.

(** A request matched to one of the routes [registerScansRoutes] registers. *)
Inductive ApiRequest :=
| PostUpload (request : Request Buffer)
| GetScans (request : Request Buffer)
| GetScan (request : Request Buffer).

Definition handle (env : Env Buffer) (a : ApiRequest) : Async Reply :=
  match a with
  | PostUpload request => upload_route env request
  | GetScans request => list_route env request
  | GetScan request => get_route env request
  end.

(** An arrival: how the collaborators answer at that moment, the time, and
    the request. *)
Record Arrival := {
  arr_env : Env Buffer;
  arr_time : Z;
  arr_request : ApiRequest;
}.

(** The arrivals handled one after another, each run to its end before the
    next begins; the replies, and the world left. *)
Fixpoint serve (arrivals : list Arrival) (w : World Buffer)
  : list (Result Reply) * World Buffer :=
  match arrivals with
  | [] => ([], w)
  | a :: rest =>
      let '(r, w1) := handle (arr_env a) (arr_request a) (at_time (arr_time a) w) in
      let '(rs, w2) := serve rest w1 in
      (r :: rs, w2)
  end.

(** An upload that was answered with 200. *)
Definition is_created (a : Arrival) (r : Result Reply) : bool :=
  match arr_request a, r with
  | PostUpload _, Ok (Send status _) => (status =? 200)%N
  | _, _ => false
  end.

(** How many of the arrivals were uploads answered with 200. *)
Fixpoint count_created (arrivals : list Arrival) (replies : list (Result Reply))
  : nat :=
  match arrivals, replies with
  | a :: arrivals', r :: replies' =>
      (if is_created a r then 1 else 0) + count_created arrivals' replies'
  | _, _ => 0
  end%nat.
End Server.

Arguments ApiRequest : clear implicits.
Arguments Arrival Buffer {_}.


(** ** Vocabulary of the properties of strings *)

(** The character [c] occurs in [s]. *)
Fixpoint has_char (c : ascii) (s : string) : bool :=
  match s with
  | EmptyString => false
  | String c' rest => bool_decide (c = c') || has_char c rest
  end.


(** ** The client: the other handlers of [HomeScreen] *)

(** What the image library or the camera resolves with, or its rejection. *)
Inductive PickerResult :=
| Canceled
| Picked (uri : string)
| PickerRejected.

(** What the camera permission request resolves with, or its rejection. *)
Inductive Permission :=
| Granted
| Denied
| PermissionRejected.

(** The alerts of the picker handlers. *)
Inductive PickerAlert :=
| PickFailed
| PermissionRequired
| PhotoFailed.

(** [setSelectedImage(uri); setScanResult(null)] *)
Definition select_image (uri : string) (screen : HomeScreen) : HomeScreen :=
  {| selectedImage := Some uri;
     user := user screen;
     isAnalyzing := isAnalyzing screen;
     scanResult := None;
     alert := alert screen |}.

(** [pickImage]: the new state and the alert raised, if any. *)
Definition pickImage (result : PickerResult) (screen : HomeScreen)
  : HomeScreen * option PickerAlert :=
  match result with
  | Picked uri => (select_image uri screen, None)
  | Canceled => (screen, None)
  | PickerRejected => (screen, Some PickFailed)
  end.

(** [takePhoto]: the camera is launched only once the permission is
    granted. *)
Definition takePhoto (permission : Permission) (result : PickerResult)
    (screen : HomeScreen) : HomeScreen * option PickerAlert :=
  match permission with
  | PermissionRejected => (screen, Some PhotoFailed)
  | Denied => (screen, Some PermissionRequired)
  | Granted =>
      match result with
      | Picked uri => (select_image uri screen, None)
      | Canceled => (screen, None)
      | PickerRejected => (screen, Some PhotoFailed)
      end
  end.

(** [resetScan] *)
Definition resetScan (screen : HomeScreen) : HomeScreen :=
  {| selectedImage := None;
     user := user screen;
     isAnalyzing := isAnalyzing screen;
     scanResult := None;
     alert := alert screen |}.

(** *** [analyzePlant] around its [await]

    The handler runs up to [await fetch] and goes on when the answer is
    there.  In between, other handlers run: the Reset button is not
    disabled while the upload is under way, and once the image is gone the
    two buttons that pick one are shown again. *)

(** An upload under way: the file of the form that was posted, and the
    [selectedImage] the handler began with and still holds. *)
Record Upload := {
  posted : FormFile;
  kept_image : string;
}.

(** [analyzePlant] up to [await fetch]: the new state, and the upload it
    starts, if it starts one. *)
Definition analyzePlant_begin (screen : HomeScreen) : HomeScreen * option Upload :=
  match selectedImage screen with
  | None => (screen, None)
  | Some selected =>
      if bool_decide (selected = "") then (screen, None)
      else
        match user screen with
        | None =>
            ({| selectedImage := selectedImage screen;
                user := user screen;
                isAnalyzing := isAnalyzing screen;
                scanResult := scanResult screen;
                alert := Some AuthenticationRequired |}, None)
        | Some _ =>
            ({| selectedImage := selectedImage screen;
                user := user screen;
                isAnalyzing := true;
                scanResult := None;
                alert := alert screen |},
             Some {| posted := form_file selected; kept_image := selected |})
        end
  end.

(** The handler's [catch]: [setIsAnalyzing(false)] and an alert. *)
Definition analysis_failed (e : ClientError) (screen : HomeScreen) : HomeScreen :=
  {| selectedImage := selectedImage screen;
     user := user screen;
     isAnalyzing := false;
     scanResult := scanResult screen;
     alert := Some (ErrorAlert e) |}.

(** [analyzePlant] from the answer of [fetch] on: [selected] is the address
    the handler began with, [screen] the state by the time of the answer. *)
Definition analyzePlant_resume (selected : string) (answer : FetchResult)
    (screen : HomeScreen) : HomeScreen :=
  match answer with
  | NetworkError message => analysis_failed (FetchRejected message) screen
  | Responded status uploadData =>
      if negb (response_ok status) then
        analysis_failed (UploadFailed status) screen
      else
        match uploadData with
        | VNull | VUndefined => analysis_failed TypeError screen
        | _ =>
            {| selectedImage := selectedImage screen;
               user := user screen;
               isAnalyzing := false;
               scanResult := Some (scan_result_of uploadData selected);
               alert := alert screen |}
        end
  end.

(** What happens on the screen, one thing at a time: the image library or
    the camera hands over its result and the handler sets the state, a
    button is tapped, or the answer to an upload arrives (the [n]-th of
    those under way). *)
Inductive ScreenEvent :=
| ImagePicked (result : PickerResult)
| PhotoTaken (permission : Permission) (result : PickerResult)
| ResetTapped
| AnalyzeTapped
| UploadAnswered (n : nat) (answer : FetchResult).

(** The screen at work: the state on display, the uploads under way, and
    the uploads answered so far, each with the file that was posted. *)
Record Running := {
  shown : HomeScreen;
  in_flight : list Upload;
  answered : list (FormFile * FetchResult);
}.

Definition with_screen (screen : HomeScreen) (st : Running) : Running :=
  {| shown := screen; in_flight := in_flight st; answered := answered st |}.

(** One event.  Events are not held to the buttons the screen offers at the
    time, so that the runs of the screen are among the runs of this
    definition whatever the timing of taps and renderings. *)
Definition screen_step (st : Running) (e : ScreenEvent) : Running :=
  match e with
  | ImagePicked result => with_screen (fst (pickImage result (shown st))) st
  | PhotoTaken permission result =>
      with_screen (fst (takePhoto permission result (shown st))) st
  | ResetTapped => with_screen (resetScan (shown st)) st
  | AnalyzeTapped =>
      match analyzePlant_begin (shown st) with
      | (screen, Some upload) =>
          {| shown := screen;
             in_flight := in_flight st ++ [upload];
             answered := answered st |}
      | (screen, None) => with_screen screen st
      end
  | UploadAnswered n answer =>
      match in_flight st !! n with
      | Some upload =>
          {| shown := analyzePlant_resume (kept_image upload) answer (shown st);
             in_flight := delete n (in_flight st);
             answered := answered st ++ [(posted upload, answer)] |}
      | None => st
      end
  end.

(** The screen as it is first rendered. *)
Definition first_screen (u : option string) : HomeScreen :=
  {| selectedImage := None;
     user := u;
     isAnalyzing := false;
     scanResult := None;
     alert := None |}.

(** The screen after a series of events. *)
Definition screen_run (u : option string) (events : list ScreenEvent) : Running :=
  foldl screen_step
    {| shown := first_screen u; in_flight := []; answered := [] |} events.


(** Analyze was tapped, in the course of [events], while [selected] was
    the image on display. *)
Definition tapped_with (u : option string) (events : list ScreenEvent)
    (selected : string) : Prop :=
  exists before after,
    events = before ++ AnalyzeTapped :: after /\
    selectedImage (shown (screen_run u before)) = Some selected.

(** What holds of the screen after every event. *)
Definition screen_invariant (u : option string) (events : list ScreenEvent)
  : Prop :=
  let st := screen_run u events in
  user (shown st) = u /\
  Forall (fun upload => kept_image upload <> "" /\
                        posted upload = form_file (kept_image upload) /\
                        tapped_with u events (kept_image upload))
    (in_flight st) /\
  forall result,
    scanResult (shown st) = Some result ->
    exists selected status uploadData,
      tapped_with u events selected /\
      selected <> "" /\
      (form_file selected, Responded status uploadData) ∈ answered st /\
      response_ok status = true /\
      result = scan_result_of uploadData selected.


(** ** The wire between server and client *)

(** A reply body as the client parses it: [JSON.stringify] turns a [Date]
    into its ISO text, drops the properties that are [undefined] and writes
    an [undefined] array element as [null].  [toISOString] is the text of a
    time. *)
Fixpoint to_json (toISOString : Z -> string) (v : Value) : Value :=
  match v with
  | VDate ms => VStr (toISOString ms)
  | VUndefined => VNull
  | VArr items => VArr (map (to_json toISOString) items)
  | VObj props =>
      VObj ((fix props_to_json (ps : list (string * Value)) :=
               match ps with
               | [] => []
               | (k, VUndefined) :: rest => props_to_json rest
               | (k, x) :: rest => (k, to_json toISOString x) :: props_to_json rest
               end) props)
  | VNull | VBool _ | VNum _ | VStr _ => v
  end.

(** ** The client: [ProfileScreen] and its [loadScanHistory] *)

(** The client's [ScanHistoryItem], with the values its fields hold at run
    time. *)
Record ScanHistoryItem := {
  item_id : Value;
  item_imageUrl : Value;
  item_species : Value;
  item_commonName : Value;
  item_isSafeToEat : Value;
  item_isSafeToTouch : Value;
  item_confidence : Value;
  item_createdAt : Value;
}.

(** The state of the profile screen. *)
Record ProfileScreen := {
  profile_user : option string;
  scanHistory : list ScanHistoryItem;
  isLoading : bool;
}.

(** [(scan) => ({ id: scan.id, ... })]; reading a property of [null] or
    [undefined] throws. *)
Definition history_item (scan : Value) : option ScanHistoryItem :=
  match scan with
  | VNull | VUndefined => None
  | _ =>
      Some {| item_id := get "id" scan;
              item_imageUrl := get "imageUrl" scan;
              item_species := get "species" scan;
              item_commonName := get "commonName" scan;
              item_isSafeToEat := get "isSafeToEat" scan;
              item_isSafeToTouch := get "isSafeToTouch" scan;
              item_confidence := get "confidence" scan;
              item_createdAt := get "createdAt" scan |}
  end.

(** [data.scans || data || []]; reading [scans] of [null] throws. *)
Definition history_source (data : Value) : option Value :=
  match data with
  | VNull | VUndefined => None
  | _ => Some (js_or (js_or (get "scans" data) data) (VArr []))
  end.

(** [setScanHistory(history); setIsLoading(false)] *)
Definition history_loaded (history : list ScanHistoryItem) (p : ProfileScreen)
  : ProfileScreen :=
  {| profile_user := profile_user p; scanHistory := history; isLoading := false |}.

(** The handler's [catch]: [setIsLoading(false)]. *)
Definition load_failed (p : ProfileScreen) : ProfileScreen :=
  {| profile_user := profile_user p;
     scanHistory := scanHistory p;
     isLoading := false |}.

(** [loadScanHistory]: [fetched] is what the GET of /api/scans resolves or
    rejects with.  Only an array has a [map]; on anything else the call
    throws into the handler's [catch]. *)
Definition loadScanHistory (fetched : FetchResult) (p : ProfileScreen)
  : ProfileScreen :=
  match profile_user p with
  | None => p
  | Some _ =>
      match fetched with
      | NetworkError _ => load_failed p
      | Responded status data =>
          if negb (response_ok status) then load_failed p
          else
            match history_source data with
            | Some (VArr scans) =>
                match mapM history_item scans with
                | Some history => history_loaded history p
                | None => load_failed p
                end
            | _ => load_failed p
            end
      end
  end.

(** A row as the history shows it. *)
Definition row_item (toISOString : Z -> string) (r : Scan) : ScanHistoryItem :=
  {| item_id := VStr (scan_id r);
     item_imageUrl := VStr (scan_imageUrl r);
     item_species := VStr (scan_species r);
     item_commonName := VStr (scan_commonName r);
     item_isSafeToEat := VBool (scan_isSafeToEat r);
     item_isSafeToTouch := VBool (scan_isSafeToTouch r);
     item_confidence := VStr (confidence_text (scan_confidence r));
     item_createdAt := VStr (toISOString (scan_createdAt r)) |}.

(** ** The tab bar *)

Record TabBarItem := {
  tab_name : string;
  tab_route : string;
  tab_icon : string;
  tab_label : string;
}.

(** [s.startsWith(sub)] *)
Fixpoint starts_with (s sub : string) : bool :=
  match sub, s with
  | EmptyString, _ => true
  | String _ _, EmptyString => false
  | String c sub', String d s' => bool_decide (c = d) && starts_with s' sub'
  end.

(** [s.includes(sub)] *)
Fixpoint includes (s sub : string) : bool :=
  starts_with s sub ||
  match s with
  | EmptyString => false
  | String _ s' => includes s' sub
  end.

(** [pathname.includes(tab.name)] *)
Definition isActive (pathname : string) (tab : TabBarItem) : bool :=
  includes pathname (tab_name tab).

(** [l.findIndex(p)]: the index of the first element that satisfies [p],
    or -1. *)
Fixpoint findIndex {A} (p : A -> bool) (l : list A) : Z :=
  match l with
  | [] => -1
  | x :: rest =>
      if p x then 0
      else let i := findIndex p rest in if i <? 0 then -1 else i + 1
  end.

(** [tabs.findIndex((tab) => pathname.includes(tab.name))] *)
Definition activeIndex (pathname : string) (tabs : list TabBarItem) : Z :=
  findIndex (isActive pathname) tabs.

(** [useSharedValue(activeIndex >= 0 ? activeIndex : 0)] *)
Definition indicatorPosition (pathname : string) (tabs : list TabBarItem) : Z :=
  if 0 <=? activeIndex pathname tabs then activeIndex pathname tabs else 0.


(** ** More of the concrete deployment, for examples *)

Definition carol : Session := {| user_id := "carol" |}.
Definition dave : Session := {| user_id := "dave" |}.

(** Three arrivals: an upload by carol, her list, and dave asking for her
    scan. *)
Definition demo_arrivals : list (Arrival N) :=
  [ {| arr_env := demo_env; arr_time := 1700000000000;
       arr_request := PostUpload (upload_request carol 4096) |};
    {| arr_env := demo_env; arr_time := 1700000001000;
       arr_request := GetScans (scan_request carol "") |};
    {| arr_env := model_down_env; arr_time := 1700000002000;
       arr_request := GetScan (scan_request dave (demo_uuid 0)) |} ].

(** A screen that shows the result of an earlier analysis. *)
Definition screen_with_result : HomeScreen :=
  {| selectedImage := Some "file:///photos/leaf.jpg";
     user := Some "alice";
     isAnalyzing := false;
     scanResult := Some (scan_result_of nettle "file:///photos/leaf.jpg");
     alert := None |}.

(** A profile screen that is loading for alice. *)
Definition loading_profile : ProfileScreen :=
  {| profile_user := Some "alice"; scanHistory := []; isLoading := true |}.

(** Two tabs, the name of the first inside the name of the second. *)
Definition home_tab : TabBarItem :=
  {| tab_name := "home"; tab_route := "/(tabs)/(home)/";
     tab_icon := "home"; tab_label := "Home" |}.

Definition homepage_tab : TabBarItem :=
  {| tab_name := "homepage"; tab_route := "/(tabs)/homepage";
     tab_icon := "web"; tab_label := "Homepage" |}.


(** Alice picks a photo and taps Analyze. *)
Definition picked_and_tapped : list ScreenEvent :=
  [ImagePicked (Picked "file:///photos/leaf.jpg"); AnalyzeTapped].


(** The body of the 200 reply to a second upload of alice's, of the same
    file name at the same time. *)
Definition second_reply : Value :=
  VObj [("scanId", VStr (demo_uuid 1));
        ("imageUrl",
         VStr "https://cdn.example/scans/alice/1700000000000-leaf.jpg?t=1700000000000");
        ("analysis", analysis_object nettle_analysis)].

(** The world after that second upload, of 4096 bytes. *)
Definition after_second_upload : World N :=
  snd (upload_route demo_env (upload_request alice 4096) after_upload).

(** ** Properties of the table queries *)

#[global] Instance created_desc_trans : Transitive created_desc.
Proof. intros a b c. unfold created_desc. lia. Qed.

Lemma select_by_user_perm uid table :
  select_by_user uid table ≡ₚ filter (fun r => scan_userId r = uid) table.
Proof. unfold select_by_user. apply merge_sort_Permutation. Qed.

Lemma select_by_user_sorted uid table :
  StronglySorted created_desc (select_by_user uid table).
Proof. unfold select_by_user. apply StronglySorted_merge_sort; apply _. Qed.

Lemma select_by_user_elem uid table r :
  r ∈ select_by_user uid table <-> r ∈ table /\ scan_userId r = uid.
Proof. rewrite select_by_user_perm, list_elem_of_filter. tauto. Qed.

Lemma select_by_id_none i table :
  (forall r, r ∈ table -> scan_id r <> i) -> select_by_id i table = None.
Proof.
  unfold select_by_id. induction table as [|r table IH]; intros Hnone; [done|].
  simpl. rewrite bool_decide_eq_false_2 by (apply Hnone; left).
  apply IH. intros r' Hr'. apply Hnone. by right.
Qed.

(** With [id] a primary key, the lookup finds the one row of that id. *)
Lemma select_by_id_unique table r :
  NoDup (map scan_id table) -> r ∈ table ->
  select_by_id (scan_id r) table = Some r.
Proof.
  unfold select_by_id. induction table as [|r' table IH]; intros Hkey Hr.
  - by apply elem_of_nil in Hr.
  - simpl in *. apply NoDup_cons in Hkey as [Hfresh Hkey].
    apply elem_of_cons in Hr as [->|Hr].
    + by rewrite bool_decide_eq_true_2.
    + rewrite bool_decide_eq_false_2; [by apply IH|].
      intros Heq. apply Hfresh. rewrite Heq. by apply list_elem_of_fmap_2.
Qed.

(** ** Properties of the backend routes *)

(** Unfolds the awaits of a handler body into plain world passing. *)
Ltac run_route :=
  unfold bind, try_catch, throw, ret, logger, Date_now, storage_upload,
    storage_getSignedUrl, generateObject, db_insert, db_findMany, db_findFirst,
    external; simpl.

Tactic Notation "run_route" "in" hyp(H) :=
  unfold bind, try_catch, throw, ret, logger, Date_now, storage_upload,
    storage_getSignedUrl, generateObject, db_insert, db_findMany, db_findFirst,
    external in H; simpl in H.

(** Unfolds the names given to the calls of an upload. *)
Ltac name_calls :=
  unfold adapters_succeed, analysis_fails, successful_upload_events,
    inserted_row, upload_call, sign_call, generate_call, insert_call,
    model_answer, fresh_url, durable_key, requested_key in *.

Section BackendProperties.
Context {Buffer : Type} `{!BufferOps Buffer} `{!UuidSyntax} (env : Env Buffer).
Implicit Types (w : World Buffer) (request : Request Buffer).
Implicit Types (data : FilePart Buffer) (s : Session) (a : Analysis).

Lemma world_ext w1 w2 :
  objects w1 = objects w2 -> rows w1 = rows w2 -> now w1 = now w2 ->
  trace w1 = trace w2 -> w1 = w2.
Proof. destruct w1, w2. simpl. by intros -> -> -> ->. Qed.

Lemma toBuffer_within data :
  (byteLength (content data) <= fileSizeLimit)%N ->
  toBuffer fileSizeLimit data = Some (content data).
Proof.
  intros Hsize. unfold toBuffer.
  destruct (N.ltb_spec fileSizeLimit (byteLength (content data))); [lia | done].
Qed.

Lemma toBuffer_beyond data :
  (fileSizeLimit < byteLength (content data))%N ->
  toBuffer fileSizeLimit data = None.
Proof.
  intros Hsize. unfold toBuffer.
  destruct (N.ltb_spec fileSizeLimit (byteLength (content data))); [done | lia].
Qed.

(** Without a session no handler does anything: the authentication
    collaborator has answered, and the world is as before. *)
Lemma routes_need_session request w :
  requireAuth request = None ->
  upload_route env request w = (Ok AuthReplied, w) /\
  list_route env request w = (Ok AuthReplied, w) /\
  get_route env request w = (Ok AuthReplied, w).
Proof.
  intros Hs. unfold upload_route, list_route, get_route. by rewrite Hs.
Qed.

(** An upload in which the file is within the cap and every adapter
    succeeds: the reply and the world it leaves. *)
Lemma upload_route_success request w s data a :
  requireAuth request = Some s ->
  request_file request = Ok (Some data) ->
  (byteLength (content data) <= fileSizeLimit)%N ->
  adapters_succeed env s data w a ->
  upload_route env request w =
    (Ok (Send 200 (upload_response (inserted_row env s data w a)
                     (fresh_url env s data w) a)),
     {| objects := <[durable_key env s data w := content data]> (objects w);
        rows := rows w ++ [inserted_row env s data w a];
        now := now w;
        trace := trace w ++ successful_upload_events env s data w a |}).
Proof.
  intros Hs Hf Hsize (Hup & Hsign & Hgen & Hparse & Hins & Hfresh).
  unfold upload_route. rewrite Hs, Hf, (toBuffer_within _ Hsize).
  name_calls. run_route.
  rewrite Hup. simpl. rewrite Hsign. simpl. rewrite Hgen, Hparse. simpl.
  rewrite Hins. simpl.
  rewrite bool_decide_eq_false_2 by done. simpl.
  f_equal.
  apply world_ext; simpl; [reflexivity..|].
  by rewrite <- !app_assoc.
Qed.

(** Conversely, a 200 reply is only ever sent by such an upload. *)
Lemma upload_route_200_inv request w body w' :
  upload_route env request w = (Ok (Send 200 body), w') ->
  exists s data a,
    requireAuth request = Some s /\
    request_file request = Ok (Some data) /\
    (byteLength (content data) <= fileSizeLimit)%N /\
    adapters_succeed env s data w a.
Proof.
  unfold upload_route. intros Hrun.
  destruct (requireAuth request) as [s|] eqn:Hs; [|discriminate].
  destruct (request_file request) as [[data|]|] eqn:Hf; [|discriminate..].
  exists s, data.
  unfold toBuffer in Hrun.
  destruct (N.ltb_spec fileSizeLimit (byteLength (content data))) as [|Hsize];
    [discriminate|].
  name_calls. run_route in Hrun.
  destruct (fault env (StorageUpload _ _)) eqn:Hup; [discriminate|].
  simpl in Hrun.
  destruct (fault env (StorageGetSignedUrl _)) eqn:Hsign; [discriminate|].
  simpl in Hrun.
  destruct (fault env (GenerateObject _ _)) eqn:Hgen; [discriminate|].
  destruct (analysisSchema _) as [a|] eqn:Hparse; [|discriminate].
  simpl in Hrun.
  destruct (fault env (DbInsert _)) eqn:Hins; [discriminate|].
  case_bool_decide as Hfresh; [discriminate|].
  exists a. repeat split; assumption.
Qed.

(** The schema check accepts what the parser produces. *)
Lemma analysis_object_validates a : validates (analysis_object a) = true.
Proof. destruct a as [? ? ? ? [] ? ?]; reflexivity. Qed.

Lemma analysis_object_parses a : analysisSchema (analysis_object a) = Some a.
Proof. destruct a as [? ? ? ? [] ? ?]; reflexivity. Qed.

(** C1. An upload whose file part exceeds the 10 MiB cap is answered with
    413 "File too large"; the handler begins no external call (no storage
    write, no analysis, no insert), and the stored objects and the rows are
    as before. *)
Theorem upload_too_large_rejected request w s data :
  requireAuth request = Some s ->
  request_file request = Ok (Some data) ->
  (fileSizeLimit < byteLength (content data))%N ->
  exists w' new,
    upload_route env request w = (Ok (Send 413 (error_body "File too large")), w') /\
    trace w' = trace w ++ new /\
    calls_begun new = [] /\
    objects w' = objects w /\
    rows w' = rows w.
Proof.
  intros Hs Hf Hsize.
  unfold upload_route. rewrite Hs, Hf, (toBuffer_beyond _ Hsize). run_route.
  eexists _, [_; _]. split; [reflexivity|]. simpl.
  split; [by rewrite <- app_assoc|]. done.
Qed.

(** C8. An authenticated upload without a file part is answered with 400
    "No file provided"; the handler begins no external call, and the stored
    objects and the rows are as before. *)
Theorem upload_without_file_rejected request w s :
  requireAuth request = Some s ->
  request_file request = Ok None ->
  exists w' new,
    upload_route env request w = (Ok (Send 400 (error_body "No file provided")), w') /\
    trace w' = trace w ++ new /\
    calls_begun new = [] /\
    objects w' = objects w /\
    rows w' = rows w.
Proof.
  intros Hs Hf.
  unfold upload_route. rewrite Hs, Hf. run_route.
  eexists _, [_; _]. split; [reflexivity|]. simpl.
  split; [by rewrite <- app_assoc|]. done.
Qed.

(** C6. When the storage write and the signing succeed and the analysis
    then fails, the handler throws the failure of the analysis, inserts no
    row and begins no insert, and the object just stored is still there:
    the calls of the run are the write, the signing and the analysis, and
    nothing after them. *)
Theorem analysis_failure_leaves_object request w s data :
  requireAuth request = Some s ->
  request_file request = Ok (Some data) ->
  (byteLength (content data) <= fileSizeLimit)%N ->
  fault env (upload_call s data w) = false ->
  fault env (sign_call env s data w) = false ->
  analysis_fails env data ->
  exists w' new,
    upload_route env request w =
      (Throw (if fault env (generate_call data) then ModelFailure
              else NoObjectGenerated), w') /\
    rows w' = rows w /\
    objects w' = <[durable_key env s data w := content data]> (objects w) /\
    objects w' !! durable_key env s data w = Some (content data) /\
    trace w' = trace w ++ new /\
    calls_begun new =
      [upload_call s data w; sign_call env s data w; generate_call data].
Proof.
  intros Hs Hf Hsize Hup Hsign Hfail.
  unfold upload_route. rewrite Hs, Hf, (toBuffer_within _ Hsize).
  name_calls. run_route.
  rewrite Hup. simpl. rewrite Hsign. simpl.
  destruct (fault env (GenerateObject _ _)) eqn:Hgen; simpl.
  - eexists _, [_; _; _; _; _; _; _; _; _; _]. split; [reflexivity|]. simpl.
    rewrite lookup_insert_eq, <- !app_assoc. done.
  - destruct Hfail as [|Hparse]; [discriminate|]. rewrite Hparse. simpl.
    eexists _, [_; _; _; _; _; _; _; _; _; _]. split; [reflexivity|]. simpl.
    rewrite lookup_insert_eq, <- !app_assoc. done.
Qed.

(** C5. An upload under the size cap, with a valid session, in which the
    storage, the analysis and the insert all succeed, is answered with 200
    and a body of exactly the three keys scanId, imageUrl and analysis;
    the analysis object has exactly the seven schema fields, a confidence
    among high, medium and low, and two booleans. *)
Theorem upload_response_validates request w s data a :
  requireAuth request = Some s ->
  request_file request = Ok (Some data) ->
  (byteLength (content data) < fileSizeLimit)%N ->
  adapters_succeed env s data w a ->
  exists scanId imageUrl analysis w',
    upload_route env request w =
      (Ok (Send 200 (VObj [("scanId", VStr scanId);
                           ("imageUrl", VStr imageUrl);
                           ("analysis", analysis)])), w') /\
    validates analysis = true /\
    keys analysis = analysis_fields /\
    is_confidence (get "confidence" analysis) = true /\
    is_boolean (get "isSafeToEat" analysis) = true /\
    is_boolean (get "isSafeToTouch" analysis) = true /\
    analysisSchema analysis = Some a.
Proof.
  intros Hs Hf Hsize Hok.
  rewrite (upload_route_success request w s data a) by (try done; lia).
  eexists _, _, (analysis_object a), _. split; [reflexivity|].
  split; [apply analysis_object_validates|].
  split; [reflexivity|].
  split; [by destruct a as [? ? ? ? [] ? ?]|].
  split; [reflexivity|].
  split; [reflexivity|].
  apply analysis_object_parses.
Qed.

(** C7. In every execution of the upload route that ends in a 200 reply,
    the external calls are the storage write, the signing, the analysis and
    the insert, each ended before the next begins: the write has ended
    before the analysis begins, and the analysis has ended before the
    insert begins. *)
Theorem upload_calls_sequential request w body w' :
  upload_route env request w = (Ok (Send 200 body), w') ->
  exists s data a new,
    requireAuth request = Some s /\
    request_file request = Ok (Some data) /\
    trace w' = trace w ++ new /\
    call_events new =
      [EvBegin (upload_call s data w); EvEnd (upload_call s data w) true;
       EvBegin (sign_call env s data w); EvEnd (sign_call env s data w) true;
       EvBegin (generate_call data); EvEnd (generate_call data) true;
       EvBegin (insert_call env s data w a);
       EvEnd (insert_call env s data w a) true] /\
    before (EvEnd (upload_call s data w) true) (EvBegin (generate_call data)) new /\
    before (EvEnd (generate_call data) true)
           (EvBegin (insert_call env s data w a)) new.
Proof.
  intros Hrun.
  destruct (upload_route_200_inv _ _ _ _ Hrun) as (s & data & a & Hs & Hf & Hsize & Hok).
  rewrite (upload_route_success request w s data a) in Hrun by done.
  injection Hrun as _ <-. simpl.
  exists s, data, a, (successful_upload_events env s data w a).
  repeat split; try done.
  - by eexists [_; _; _], [_; _; _], [_; _; _; _; _].
  - by eexists [_; _; _; _; _; _; _; _], [_], [_; _].
Qed.

(** C9. In every upload that ends in a 200 reply, with a storage adapter
    that answers with the key it was given, the bytes are written under
    the key scans/<user id>/<upload time>-<file name>, the object is kept
    under that key, and the one row inserted records that key as its
    imageKey (its imageUrl being the link signed from it). *)
Theorem upload_key_namespaced request w body w' :
  upload_route env request w = (Ok (Send 200 body), w') ->
  (forall key, stored_key env key = key) ->
  exists s data a row new,
    let key := "scans/" +:+ user_id s +:+ "/" +:+ pretty (now w) +:+ "-"
               +:+ filename data in
    requireAuth request = Some s /\
    request_file request = Ok (Some data) /\
    trace w' = trace w ++ new /\
    calls_begun new =
      [StorageUpload key (content data);
       StorageGetSignedUrl key;
       generate_call data;
       DbInsert (scan_values s (signed_url env (now w) key) key a)] /\
    objects w' = <[key := content data]> (objects w) /\
    rows w' = rows w ++ [row] /\
    scan_imageKey row = key /\
    scan_userId row = user_id s /\
    scan_imageUrl row = signed_url env (now w) key.
Proof.
  intros Hrun Hkey.
  destruct (upload_route_200_inv _ _ _ _ Hrun) as (s & data & a & Hs & Hf & Hsize & Hok).
  rewrite (upload_route_success request w s data a) in Hrun by done.
  injection Hrun as _ <-.
  exists s, data, a, (inserted_row env s data w a),
    (successful_upload_events env s data w a).
  change ("scans/" +:+ user_id s +:+ "/" +:+ pretty (now w) +:+ "-"
          +:+ filename data) with (requested_key s data w).
  assert (durable_key env s data w = requested_key s data w) as Hdurable
    by apply Hkey.
  cbv zeta. unfold inserted_row, fresh_url. simpl. rewrite !Hdurable.
  unfold upload_call, sign_call, insert_call, fresh_url. rewrite !Hdurable.
  done.
Qed.

(** C4. An authenticated GET /api/scans whose query does not fail is
    answered with 200 and the caller's scans: every row owned by the
    session's user and no other row, each as often as the table holds it
    (so as many records as the user has scans), ordered by createdAt
    descending. *)
Theorem list_route_own_scans_newest_first request w s :
  requireAuth request = Some s ->
  fault env (DbFindMany (user_id s)) = false ->
  exists scans w',
    list_route env request w = (Ok (Send 200 (VArr (map scan_object scans))), w') /\
    scans ≡ₚ filter (fun r => scan_userId r = user_id s) (rows w) /\
    (forall r, r ∈ scans <-> r ∈ rows w /\ scan_userId r = user_id s) /\
    length scans = length (filter (fun r => scan_userId r = user_id s) (rows w)) /\
    StronglySorted created_desc scans.
Proof.
  intros Hs Hquery.
  unfold list_route. rewrite Hs. run_route. rewrite Hquery. simpl.
  eexists _, _. split; [reflexivity|].
  split; [apply select_by_user_perm|].
  split; [apply select_by_user_elem|].
  split; [by rewrite select_by_user_perm|].
  apply select_by_user_sorted.
Qed.


(** C3, as amended. An authenticated GET /api/scans/:id whose id is a
    uuid and whose lookup does not fail, on a table where id is a key: if
    no scan has that uuid the reply is 404; if the scan of that uuid belongs
    to another user the reply is 403 and its body is the fixed object
    {error}, which has none of the scan's columns; otherwise (the signing
    not failing) the reply is the scan's record with imageUrl replaced by a
    link signed now from the stored key.  An id that is not a uuid is
    refused by the database, and the handler throws instead of replying
    404. *)
Theorem get_route_cases request w s :
  requireAuth request = Some s ->
  fault env (DbFindFirst (req_id request)) = false ->
  NoDup (map scan_id (rows w)) ->
  (uuid_in (req_id request) = None ->
     exists w',
       get_route env request w = (Throw InvalidTextRepresentation, w')) /\
  (forall u,
     uuid_in (req_id request) = Some u ->
     ((forall r, r ∈ rows w -> scan_id r <> u) ->
        exists w',
          get_route env request w =
            (Ok (Send 404 (error_body "Scan not found")), w')) /\
     (forall r, r ∈ rows w -> scan_id r = u ->
        scan_userId r <> user_id s ->
        exists body w',
          get_route env request w = (Ok (Send 403 body), w') /\
          body = error_body "Unauthorized" /\
          keys body = ["error"] /\
          forall column, column ∈ scan_columns -> get column body = VUndefined) /\
     (forall r, r ∈ rows w -> scan_id r = u ->
        scan_userId r = user_id s ->
        fault env (StorageGetSignedUrl (scan_imageKey r)) = false ->
        exists body w' new,
          get_route env request w = (Ok (Send 200 body), w') /\
          body = spread_with (scan_object r) "imageUrl"
                   (VStr (signed_url env (now w) (scan_imageKey r))) /\
          keys body = scan_columns /\
          get "imageUrl" body = VStr (signed_url env (now w) (scan_imageKey r)) /\
          (forall column, column ≠ "imageUrl" ->
             get column body = get column (scan_object r)) /\
          trace w' = trace w ++ new /\
          StorageGetSignedUrl (scan_imageKey r) ∈ calls_begun new)).
Proof.
  intros Hs Hquery Hkey. unfold get_route. rewrite Hs.
  split.
  { intros Hread. run_route. rewrite Hquery. simpl. rewrite Hread. simpl.
    by eexists. }
  intros u Hread. split; [|split].
  - intros Hnone. run_route. rewrite Hquery. simpl. rewrite Hread. simpl.
    rewrite (select_by_id_none _ _ Hnone). simpl. by eexists.
  - intros r Hr Hid Howner. run_route. rewrite Hquery. simpl.
    rewrite Hread. simpl.
    rewrite <- Hid, (select_by_id_unique _ _ Hkey Hr). simpl.
    rewrite bool_decide_eq_true_2 by done. simpl.
    eexists _, _. split; [reflexivity|].
    split; [reflexivity|]. split; [reflexivity|].
    intros column Hcol. unfold scan_columns in Hcol.
    repeat (apply elem_of_cons in Hcol as [->|Hcol]; [reflexivity|]).
    by apply elem_of_nil in Hcol.
  - intros r Hr Hid Howner Hsign. run_route. rewrite Hquery. simpl.
    rewrite Hread. simpl.
    rewrite <- Hid, (select_by_id_unique _ _ Hkey Hr). simpl.
    rewrite bool_decide_eq_false_2 by (intros Hne; by apply Hne). simpl.
    rewrite Hsign. simpl.
    eexists _, _, [_; _; _; _; _; _]. split; [reflexivity|].
    split; [reflexivity|]. split; [reflexivity|]. split; [reflexivity|].
    split; [|split].
    + intros column Hne. simpl.
      repeat (case_decide; [congruence || reflexivity|]). reflexivity.
    + simpl. by rewrite <- !app_assoc.
    + simpl. right. left.
Qed.

(** The list route answers with the rows as stored: its only call is the
    query, and the imageUrl of every record is the one in its row. *)
Lemma list_route_signs_nothing request w s :
  requireAuth request = Some s ->
  fault env (DbFindMany (user_id s)) = false ->
  exists scans w' new,
    list_route env request w = (Ok (Send 200 (VArr (map scan_object scans))), w') /\
    trace w' = trace w ++ new /\
    calls_begun new = [DbFindMany (user_id s)] /\
    Forall (fun r => r ∈ rows w /\
              get "imageUrl" (scan_object r) = VStr (scan_imageUrl r)) scans.
Proof.
  intros Hs Hquery.
  unfold list_route. rewrite Hs. run_route. rewrite Hquery. simpl.
  eexists _, _, [_; _; _; _]. split; [reflexivity|]. simpl.
  split; [by rewrite <- !app_assoc|]. split; [done|].
  apply Forall_forall. intros r Hr. split; [|reflexivity].
  by apply select_by_user_elem in Hr as [Hr _].
Qed.

(** The upload route sends 200, 400 or 413 and nothing else. *)
Lemma upload_route_ok_status request w status body w' :
  upload_route env request w = (Ok (Send status body), w') ->
  response_ok status = true ->
  status = 200%N.
Proof.
  unfold upload_route. intros Hrun Hok.
  destruct (requireAuth request) as [s|]; [|discriminate].
  destruct (request_file request) as [[data|]|].
  - destruct (toBuffer fileSizeLimit data) as [buffer|].
    + run_route in Hrun.
      repeat (case_match; simplify_eq/=; try discriminate); reflexivity.
    + run_route in Hrun. by simplify_eq.
  - run_route in Hrun. by simplify_eq.
  - run_route in Hrun. discriminate.
Qed.

(** The rows after an upload: the rows before, or those and one more row
    with an id not yet in use. *)
Lemma upload_route_rows request w r w' :
  upload_route env request w = (r, w') ->
  rows w' = rows w \/
  exists row, rows w' = rows w ++ [row] /\ scan_id row ∉ map scan_id (rows w).
Proof.
  unfold upload_route. intros Hrun.
  destruct (requireAuth request) as [s|];
    [|run_route in Hrun; left; by simplify_eq].
  destruct (request_file request) as [[data|]|].
  - destruct (toBuffer fileSizeLimit data) as [buffer|].
    + run_route in Hrun.
      repeat (case_match; simplify_eq/=; try discriminate);
        try (left; reflexivity).
      right. eexists. split; [reflexivity|].
      by match goal with H : bool_decide _ = false |- _ =>
           apply bool_decide_eq_false in H end.
    + run_route in Hrun. left. by simplify_eq.
  - run_route in Hrun. left. by simplify_eq.
  - run_route in Hrun. left. by simplify_eq.
Qed.

(** The primary key stays a key across uploads. *)
Lemma upload_route_keeps_key request w r w' :
  NoDup (map scan_id (rows w)) ->
  upload_route env request w = (r, w') ->
  NoDup (map scan_id (rows w')).
Proof.
  intros Hkey Hrun.
  destruct (upload_route_rows _ _ _ _ Hrun) as [->|(row & -> & Hfresh)]; [done|].
  rewrite map_app. apply NoDup_app. split; [done|]. split.
  - intros i Hi Hrow. simpl in Hrow. apply list_elem_of_singleton in Hrow. by subst.
  - simpl. apply NoDup_singleton.
Qed.
End BackendProperties.

(** ** The client against the upload route *)

Section UploadThenDisplay.
Context {Buffer : Type} `{!BufferOps Buffer} `{!UuidSyntax} (env : Env Buffer).

(** The seven analysis fields are not at the top level of the response. *)
Lemma upload_response_top_level scan url a field :
  field ∈ analysis_fields ->
  get field (upload_response scan url a) = VUndefined.
Proof.
  intros Hfield. unfold analysis_fields in Hfield.
  repeat (apply elem_of_cons in Hfield as [->|Hfield]; [reflexivity|]).
  by apply elem_of_nil in Hfield.
Qed.

(** C10. Whenever the upload route answers a request with an ok status,
    its body carries the analysis under the key analysis and none of the
    seven analysis fields at the top level; the client, reading them from
    the top level, shows a result whose fields are the defaults: Unknown,
    Unknown, false, false, low, the empty string and
    No description available. *)
Theorem client_shows_defaults_after_upload
    (request : Request Buffer) (w w' : World Buffer) status body
    (fetch : FormFile -> FetchResult) screen selected u :
  upload_route env request w = (Ok (Send status body), w') ->
  response_ok status = true ->
  selectedImage screen = Some selected ->
  selected <> "" ->
  user screen = Some u ->
  fetch (form_file selected) = Responded status body ->
  exists a result,
    get "analysis" body = analysis_object a /\
    (forall field, field ∈ analysis_fields -> get field body = VUndefined) /\
    scanResult (analyzePlant fetch screen) = Some result /\
    res_species result = VStr "Unknown" /\
    res_commonName result = VStr "Unknown" /\
    res_isSafeToEat result = VBool false /\
    res_isSafeToTouch result = VBool false /\
    res_confidence result = VStr "low" /\
    res_warnings result = VStr "" /\
    res_description result = VStr "No description available".
Proof.
  intros Hrun Hok Hselected Hnonempty Huser Hfetch.
  pose proof (upload_route_ok_status env _ _ _ _ _ Hrun Hok) as ->.
  destruct (upload_route_200_inv env _ _ _ _ Hrun)
    as (s & data & a & Hs & Hf & Hsize & Hadapters).
  rewrite (upload_route_success env request w s data a) in Hrun by done.
  injection Hrun as <- _.
  exists a. eexists. split; [reflexivity|].
  split; [intros field; apply upload_response_top_level|].
  unfold analyzePlant. rewrite Hselected, Huser, Hfetch.
  rewrite bool_decide_eq_false_2 by done. simpl.
  split; [reflexivity|]. done.
Qed.
End UploadThenDisplay.

(** ** The list route and the persisted link *)

(** C2. A week after alice's upload, GET /api/scans answers with the link
    that was signed at upload time and stored in the row, and signs nothing,
    while GET /api/scans/:id for the same scan answers with a link signed at
    the time of the read. *)
Theorem list_route_serves_persisted_link :
  let listed := list_route demo_env (bare_request alice "") a_week_later in
  let fetched :=
    get_route demo_env
      (bare_request alice "00000000-0000-4000-8000-000000000000") a_week_later in
  exists item body,
    fst listed = Ok (Send 200 (VArr [item])) /\
    get "imageKey" item = VStr "scans/alice/1700000000000-leaf.jpg" /\
    get "imageUrl" item =
      VStr "https://cdn.example/scans/alice/1700000000000-leaf.jpg?t=1700000000000" /\
    calls_begun (trace (snd listed)) =
      calls_begun (trace a_week_later) ++ [DbFindMany "alice"] /\
    fst fetched = Ok (Send 200 body) /\
    get "imageUrl" body =
      VStr "https://cdn.example/scans/alice/1700000000000-leaf.jpg?t=1700604800000" /\
    get "imageUrl" item <> get "imageUrl" body.
Proof.
  vm_compute. eexists _, _. repeat split. discriminate.
Qed.

(** ** The properties at work on the concrete deployment *)

Lemma upload_too_large_rejected_witness :
  (fileSizeLimit < byteLength (content (photo one_byte_over)))%N /\
  exists w' new,
    upload_route demo_env (upload_request alice one_byte_over) empty_world =
      (Ok (Send 413 (error_body "File too large")), w') /\
    trace w' = trace empty_world ++ new /\
    calls_begun new = [] /\
    objects w' = objects empty_world /\
    rows w' = rows empty_world.
Proof.
  split; [reflexivity|].
  apply (upload_too_large_rejected demo_env
           (upload_request alice one_byte_over) empty_world alice
           (photo one_byte_over)); reflexivity.
Defined.

Lemma upload_without_file_rejected_witness :
  exists w' new,
    upload_route demo_env (bare_request alice "") empty_world =
      (Ok (Send 400 (error_body "No file provided")), w') /\
    trace w' = trace empty_world ++ new /\
    calls_begun new = [] /\
    objects w' = objects empty_world /\
    rows w' = rows empty_world.
Proof.
  apply (upload_without_file_rejected demo_env (bare_request alice "")
           empty_world alice); reflexivity.
Defined.

Lemma analysis_failure_leaves_object_witness :
  analysis_fails model_down_env (photo 2048) /\
  exists w' new,
    upload_route model_down_env (upload_request alice 2048) empty_world =
      (Throw ModelFailure, w') /\
    rows w' = [] /\
    objects w' = <["scans/alice/1700000000000-leaf.jpg" := 2048%N]> ∅ /\
    objects w' !! "scans/alice/1700000000000-leaf.jpg" = Some 2048%N /\
    trace w' = new /\
    calls_begun new =
      [StorageUpload "scans/alice/1700000000000-leaf.jpg" 2048%N;
       StorageGetSignedUrl "scans/alice/1700000000000-leaf.jpg";
       GenerateObject "" "image/jpeg"].
Proof.
  split; [left; reflexivity|].
  assert (byteLength (content (photo 2048)) <= fileSizeLimit)%N as Hsize
    by (vm_compute; discriminate).
  assert (analysis_fails model_down_env (photo 2048)) as Hfail
    by (left; reflexivity).
  pose proof (analysis_failure_leaves_object model_down_env
                (upload_request alice 2048) empty_world alice (photo 2048)
                eq_refl eq_refl Hsize eq_refl eq_refl Hfail) as Hrun.
  vm_compute in Hrun. vm_compute. exact Hrun.
Defined.

Lemma demo_adapters_succeed :
  adapters_succeed demo_env alice (photo 2048) empty_world nettle_analysis.
Proof. repeat split. apply not_elem_of_nil. Qed.

Lemma demo_upload_run :
  upload_route demo_env (upload_request alice 2048) empty_world =
    (Ok (Send 200 (nettle_reply "scans/alice/1700000000000-leaf.jpg")),
     after_upload).
Proof. vm_compute. reflexivity. Qed.

Lemma upload_response_validates_witness :
  (byteLength (content (photo 2048)) < fileSizeLimit)%N /\
  adapters_succeed demo_env alice (photo 2048) empty_world nettle_analysis /\
  exists scanId imageUrl analysis w',
    upload_route demo_env (upload_request alice 2048) empty_world =
      (Ok (Send 200 (VObj [("scanId", VStr scanId);
                           ("imageUrl", VStr imageUrl);
                           ("analysis", analysis)])), w') /\
    validates analysis = true /\
    keys analysis = analysis_fields /\
    is_confidence (get "confidence" analysis) = true /\
    is_boolean (get "isSafeToEat" analysis) = true /\
    is_boolean (get "isSafeToTouch" analysis) = true /\
    analysisSchema analysis = Some nettle_analysis.
Proof.
  split; [reflexivity|]. split; [apply demo_adapters_succeed|].
  apply (upload_response_validates demo_env (upload_request alice 2048)
           empty_world alice (photo 2048) nettle_analysis);
    [reflexivity | reflexivity | reflexivity | apply demo_adapters_succeed].
Defined.

Lemma upload_calls_sequential_witness :
  exists s data a new,
    requireAuth (upload_request alice 2048) = Some s /\
    request_file (upload_request alice 2048) = Ok (Some data) /\
    trace after_upload = trace empty_world ++ new /\
    call_events new =
      [EvBegin (upload_call s data empty_world);
       EvEnd (upload_call s data empty_world) true;
       EvBegin (sign_call demo_env s data empty_world);
       EvEnd (sign_call demo_env s data empty_world) true;
       EvBegin (generate_call data); EvEnd (generate_call data) true;
       EvBegin (insert_call demo_env s data empty_world a);
       EvEnd (insert_call demo_env s data empty_world a) true] /\
    before (EvEnd (upload_call s data empty_world) true)
           (EvBegin (generate_call data)) new /\
    before (EvEnd (generate_call data) true)
           (EvBegin (insert_call demo_env s data empty_world a)) new.
Proof.
  apply (upload_calls_sequential demo_env (upload_request alice 2048) empty_world
           (nettle_reply "scans/alice/1700000000000-leaf.jpg") after_upload).
  vm_compute. reflexivity.
Defined.

Lemma upload_key_namespaced_witness :
  (forall key, stored_key demo_env key = key) /\
  exists s data a row new,
    let key := "scans/" +:+ user_id s +:+ "/" +:+ pretty (now empty_world) +:+ "-"
               +:+ filename data in
    requireAuth (upload_request alice 2048) = Some s /\
    request_file (upload_request alice 2048) = Ok (Some data) /\
    trace after_upload = trace empty_world ++ new /\
    calls_begun new =
      [StorageUpload key (content data);
       StorageGetSignedUrl key;
       generate_call data;
       DbInsert (scan_values s (signed_url demo_env (now empty_world) key) key a)] /\
    objects after_upload = <[key := content data]> (objects empty_world) /\
    rows after_upload = rows empty_world ++ [row] /\
    scan_imageKey row = key /\
    scan_userId row = user_id s /\
    scan_imageUrl row = signed_url demo_env (now empty_world) key.
Proof.
  split; [reflexivity|].
  apply (upload_key_namespaced demo_env (upload_request alice 2048) empty_world
           (nettle_reply "scans/alice/1700000000000-leaf.jpg") after_upload).
  - vm_compute. reflexivity.
  - reflexivity.
Defined.

Lemma list_route_own_scans_newest_first_witness :
  exists scans w',
    list_route demo_env (bare_request alice "") history_world =
      (Ok (Send 200 (VArr (map scan_object scans))), w') /\
    scans ≡ₚ filter (fun r => scan_userId r = user_id alice) (rows history_world) /\
    (forall r, r ∈ scans <-> r ∈ rows history_world /\ scan_userId r = user_id alice) /\
    length scans =
      length (filter (fun r => scan_userId r = user_id alice) (rows history_world)) /\
    StronglySorted created_desc scans.
Proof.
  apply (list_route_own_scans_newest_first demo_env (bare_request alice "")
           history_world alice); reflexivity.
Defined.

(** Alice's three scans come back as three records, newest first. *)
Example list_route_three_scans :
  fst (list_route demo_env (bare_request alice "") history_world) =
    Ok (Send 200 (VArr [scan_object (demo_scan (demo_uuid 3) "alice" 30);
                        scan_object (demo_scan (demo_uuid 2) "alice" 20);
                        scan_object (demo_scan (demo_uuid 1) "alice" 10)])).
Proof. vm_compute. reflexivity. Qed.

Lemma history_ids_unique : NoDup (map scan_id (rows history_world)).
Proof. apply (bool_decide_unpack _). vm_compute. exact I. Qed.

Lemma get_route_cases_witness :
  (exists w',
     get_route demo_env (bare_request alice "latest") history_world =
       (Throw InvalidTextRepresentation, w')) /\
  (exists w',
     get_route demo_env
       (bare_request alice "00000000-0000-4000-8000-000000000007") history_world =
       (Ok (Send 404 (error_body "Scan not found")), w')) /\
  (exists body w',
     get_route demo_env
       (bare_request alice "00000000-0000-4000-8000-00000000000B") history_world =
       (Ok (Send 403 body), w') /\
     body = error_body "Unauthorized" /\
     keys body = ["error"] /\
     forall column, column ∈ scan_columns -> get column body = VUndefined) /\
  (exists body w' new,
     get_route demo_env
       (bare_request alice "00000000-0000-4000-8000-000000000001") history_world =
       (Ok (Send 200 body), w') /\
     body = spread_with (scan_object (demo_scan (demo_uuid 1) "alice" 10)) "imageUrl"
              (VStr (signed_url demo_env (now history_world)
                       (scan_imageKey (demo_scan (demo_uuid 1) "alice" 10)))) /\
     keys body = scan_columns /\
     get "imageUrl" body =
       VStr (signed_url demo_env (now history_world)
               (scan_imageKey (demo_scan (demo_uuid 1) "alice" 10))) /\
     (forall column, column ≠ "imageUrl" ->
        get column body =
        get column (scan_object (demo_scan (demo_uuid 1) "alice" 10))) /\
     trace w' = trace history_world ++ new /\
     StorageGetSignedUrl (scan_imageKey (demo_scan (demo_uuid 1) "alice" 10))
       ∈ calls_begun new).
Proof.
  split; [|split; [|split]].
  - apply (proj1 (get_route_cases demo_env (bare_request alice "latest")
                    history_world alice eq_refl eq_refl history_ids_unique)).
    reflexivity.
  - apply (proj1 (proj2 (get_route_cases demo_env
                           (bare_request alice "00000000-0000-4000-8000-000000000007")
                           history_world alice eq_refl eq_refl history_ids_unique)
                    (demo_uuid 7) eq_refl)).
    intros r Hr. simpl in Hr.
    repeat (apply elem_of_cons in Hr as [->|Hr]; [discriminate|]).
    by apply elem_of_nil in Hr.
  - apply (proj1 (proj2 (proj2 (get_route_cases demo_env
                           (bare_request alice "00000000-0000-4000-8000-00000000000B")
                           history_world alice eq_refl eq_refl history_ids_unique)
                    (demo_uuid 11) eq_refl))
             (demo_scan (demo_uuid 11) "bob" 25)).
    + simpl. right. left.
    + reflexivity.
    + discriminate.
  - apply (proj2 (proj2 (proj2 (get_route_cases demo_env
                           (bare_request alice "00000000-0000-4000-8000-000000000001")
                           history_world alice eq_refl eq_refl history_ids_unique)
                    (demo_uuid 1) eq_refl))
             (demo_scan (demo_uuid 1) "alice" 10)).
    + simpl. right. right. left.
    + reflexivity.
    + reflexivity.
    + reflexivity.
Defined.

(** C3, as the claim states it: alice asks for the scan "s7".  No scan has
    that id, yet the reply is not 404: the text is not a uuid, the database
    refuses the query, and the handler logs the failure and throws it. *)
Lemma get_route_malformed_id_throws :
  requireAuth (bare_request alice "s7") = Some alice /\
  (forall r, r ∈ rows history_world -> scan_id r <> "s7") /\
  fst (get_route demo_env (bare_request alice "s7") history_world) =
    Throw InvalidTextRepresentation /\
  (forall w',
     get_route demo_env (bare_request alice "s7") history_world <>
       (Ok (Send 404 (error_body "Scan not found")), w')) /\
  last (trace (snd (get_route demo_env (bare_request alice "s7") history_world))) =
    Some (EvLog error "Failed to retrieve scan").
Proof.
  split; [reflexivity|]. split.
  { intros r Hr. simpl in Hr.
    repeat (apply elem_of_cons in Hr as [->|Hr]; [discriminate|]).
    by apply elem_of_nil in Hr. }
  split; [vm_compute; reflexivity|]. split.
  - intros w' Hrun. apply (f_equal fst) in Hrun. vm_compute in Hrun. discriminate.
  - vm_compute. reflexivity.
Qed.

Lemma client_upload_run :
  upload_route demo_env client_request empty_world =
    (Ok (Send 200 (nettle_reply "scans/alice/1700000000000-scan.jpg")),
     snd (upload_route demo_env client_request empty_world)).
Proof. vm_compute. reflexivity. Qed.

Lemma client_shows_defaults_after_upload_witness :
  exists a result,
    get "analysis" (nettle_reply "scans/alice/1700000000000-scan.jpg") =
      analysis_object a /\
    (forall field, field ∈ analysis_fields ->
       get field (nettle_reply "scans/alice/1700000000000-scan.jpg") = VUndefined) /\
    scanResult (analyzePlant (fetch_from demo_env alice 2048 empty_world) ready_screen) =
      Some result /\
    res_species result = VStr "Unknown" /\
    res_commonName result = VStr "Unknown" /\
    res_isSafeToEat result = VBool false /\
    res_isSafeToTouch result = VBool false /\
    res_confidence result = VStr "low" /\
    res_warnings result = VStr "" /\
    res_description result = VStr "No description available".
Proof.
  apply (client_shows_defaults_after_upload demo_env client_request empty_world
           (snd (upload_route demo_env client_request empty_world)) 200%N
           (nettle_reply "scans/alice/1700000000000-scan.jpg")
           (fetch_from demo_env alice 2048 empty_world) ready_screen
           "file:///photos/leaf.jpg" "alice").
  - apply client_upload_run.
  - reflexivity.
  - reflexivity.
  - discriminate.
  - reflexivity.
  - vm_compute. reflexivity.
Defined.

(** ** Every run of the upload route *)

Lemma toBuffer_Some {Buffer} `{!BufferOps Buffer} limit
    (data : FilePart Buffer) buffer :
  toBuffer limit data = Some buffer ->
  buffer = content data /\ (byteLength (content data) <= limit)%N.
Proof.
  unfold toBuffer.
  destruct (N.ltb_spec limit (byteLength (content data))); [done|].
  intros [= <-]. done.
Qed.

(** Splits a run of the upload route into its paths: no session, a body
    that is not multipart, no file, file too large, and then one path per
    call that can throw. *)
Ltac upload_runs Hrun :=
  unfold upload_route in Hrun;
  destruct (requireAuth _) as [?s|] eqn:?Hs;
    [destruct (request_file _) as [[?data|]|?e] eqn:?Hf;
      [destruct (toBuffer _ _) as [?buffer|] eqn:?Hbuf| |]|];
  try match goal with
      | H : toBuffer _ _ = Some _ |- _ => apply toBuffer_Some in H as [-> ?]
      end;
  run_route in Hrun; repeat (case_match; simplify_eq/=); simplify_eq/=.

(** The events a run has added to the trace, read off the run itself. *)
Ltac trace_grows :=
  simpl; rewrite <- ?app_assoc;
  first [reflexivity | symmetry; apply app_nil_r].

Section UploadRuns.
Context {Buffer : Type} `{!BufferOps Buffer} `{!UuidSyntax} (env : Env Buffer).
Implicit Types (w : World Buffer) (request : Request Buffer).

Lemma snoc_neq {A} (l : list A) x : (l ++ [x]) <> l.
Proof.
  intros Heq. apply (f_equal length) in Heq.
  rewrite length_app in Heq. simpl in Heq. lia.
Qed.

(** X1. In every run of the upload route a row is inserted exactly when the
    reply is 200: then one row is appended, owned by the session's user,
    with an id not in use before, created now, and the reply carries that
    row's id, link and analysis; in every other run (a 400 or 413 reply, no
    session, or a thrown failure) the rows are as before. *)
Theorem upload_inserts_exactly_on_200 request w :
  let '(r, w') := upload_route env request w in
  (exists body row s,
     r = Ok (Send 200 body) /\
     requireAuth request = Some s /\
     rows w' = rows w ++ [row] /\
     scan_userId row = user_id s /\
     (scan_id row ∉ map scan_id (rows w)) /\
     scan_createdAt row = now w /\
     get "scanId" body = VStr (scan_id row) /\
     get "imageUrl" body = VStr (scan_imageUrl row) /\
     get "analysis" body = analysis_object (row_analysis row))
  \/ ((forall body, r <> Ok (Send 200 body)) /\ rows w' = rows w).
Proof.
  destruct (upload_route env request w) as [r w'] eqn:Hrun.
  upload_runs Hrun;
    try (right; split; [intros body; congruence | reflexivity]).
  left. eexists _, _, _. split; [reflexivity|]. split; [reflexivity|].
  split; [reflexivity|]. split; [reflexivity|].
  split; [by match goal with H : bool_decide _ = false |- _ =>
               apply bool_decide_eq_false in H end|].
  split; [reflexivity|]. split; [reflexivity|]. split; [reflexivity|].
  unfold upload_response, new_row, row_analysis; simpl.
  by match goal with a : Analysis |- _ => destruct a end.
Qed.

(** X2. In every run of the upload route the external calls begun are an
    initial stretch of: the storage write under the requested key, the
    signing of the durable key, the analysis of the file, the insert of the
    validated answer.  So the model is never asked before the object is
    stored and signed, and nothing is inserted that did not validate. *)
Theorem upload_calls_follow_the_sequence request w :
  let '(r, w') := upload_route env request w in
  exists new,
    trace w' = trace w ++ new /\
    (calls_begun new = [] \/
     exists s data,
       requireAuth request = Some s /\
       request_file request = Ok (Some data) /\
       (calls_begun new = [upload_call s data w] \/
        calls_begun new = [upload_call s data w; sign_call env s data w] \/
        calls_begun new =
          [upload_call s data w; sign_call env s data w; generate_call data] \/
        exists a,
          analysisSchema (model_answer env data) = Some a /\
          calls_begun new =
            [upload_call s data w; sign_call env s data w; generate_call data;
             insert_call env s data w a])).
Proof.
  destruct (upload_route env request w) as [r w'] eqn:Hrun.
  upload_runs Hrun; (eexists; split; [trace_grows|]);
    first
      [ left; reflexivity
      | right; eexists _, _; split; [reflexivity|]; split; [reflexivity|];
        first
          [ left; reflexivity
          | right; left; reflexivity
          | right; right; left; reflexivity
          | right; right; right; eexists; split; [eassumption|reflexivity] ] ].
Qed.

(** X3. The upload route stops at the first failure and swallows nothing.
    When it answers, every call it began has ended well and no error is
    logged.  When it throws, the last thing the handler does is to log the
    failure at error level, and the failure thrown to the caller is the
    first one met: either reading the file part of the request failed,
    before any call was begun, or the calls before the last ended well and
    the last one threw. *)
Theorem upload_stops_at_first_failure request w :
  let '(r, w') := upload_route env request w in
  exists new,
    trace w' = trace w ++ new /\
    match r with
    | Ok _ =>
        call_events new = completed (calls_begun new) /\
        failure_free new = true
    | Throw e =>
        last new = Some (EvLog error "Failed to upload and analyze image") /\
        ((request_file request = Throw e /\ call_events new = []) \/
         exists done c,
           calls_begun new = done ++ [c] /\
           call_events new = completed done ++ [EvBegin c; EvEnd c false] /\
           may_throw c e)
    end.
Proof.
  destruct (upload_route env request w) as [r w'] eqn:Hrun.
  upload_runs Hrun; (eexists; split; [trace_grows|]);
    first
      [ by split
      | by split; [reflexivity | left]
      | split; [reflexivity|]; right;
        first
          [ by eexists [], _; repeat split; simpl; auto
          | by eexists [_], _; repeat split; simpl; auto
          | by eexists [_; _], _; repeat split; simpl; auto
          | by eexists [_; _; _], _; repeat split; simpl; auto ] ].
Qed.

(** X4. The upload route writes at most one object and removes none: the
    store is as before unless the storage write ended well, and then it is
    the store before with the file's bytes under the durable key. *)
Theorem upload_writes_one_object_at_most request w :
  let '(r, w') := upload_route env request w in
  exists new,
    trace w' = trace w ++ new /\
    (forall k, is_Some (objects w !! k) -> is_Some (objects w' !! k)) /\
    ((objects w' = objects w /\
      forall k b, EvEnd (StorageUpload k b) true ∉ new) \/
     (exists s data,
        requireAuth request = Some s /\
        request_file request = Ok (Some data) /\
        EvEnd (upload_call s data w) true ∈ new /\
        objects w' = <[durable_key env s data w := content data]> (objects w))).
Proof.
  destruct (upload_route env request w) as [r w'] eqn:Hrun.
  upload_runs Hrun; (eexists; split; [trace_grows|]); simpl;
    (split;
     [ intros k Hk;
       first
         [ done
         | destruct (decide (stored_key env (upload_key s (now w) data) = k))
             as [<-|];
           [by rewrite lookup_insert_eq | by rewrite lookup_insert_ne] ]
     | ]);
    first
      [ left; split; [reflexivity|];
        intros k b Hin;
        repeat (apply elem_of_cons in Hin as [Hin|Hin]; [discriminate|]);
        by apply elem_of_nil in Hin
      | right; eexists _, _; split; [reflexivity|]; split; [reflexivity|];
        split; [|reflexivity];
        do 3 right; left ].
Qed.
End UploadRuns.

(** ** Every run of the read routes *)

Lemma select_by_id_Some i table r :
  select_by_id i table = Some r -> r ∈ table /\ scan_id r = i.
Proof.
  unfold select_by_id. intros Hfind. apply find_some in Hfind as [Hin Hid].
  split; [by apply list_elem_of_In|]. by apply bool_decide_eq_true in Hid.
Qed.

Lemma select_by_id_None i table r :
  select_by_id i table = None -> r ∈ table -> scan_id r <> i.
Proof.
  unfold select_by_id. intros Hfind Hin Hid.
  apply list_elem_of_In in Hin.
  pose proof (find_none _ _ Hfind _ Hin) as Hno.
  by apply bool_decide_eq_false in Hno.
Qed.

Lemma select_by_user_none uid table :
  (forall r, r ∈ table -> scan_userId r <> uid) -> select_by_user uid table = [].
Proof.
  intros Hnone. unfold select_by_user.
  replace (filter (fun s => scan_userId s = uid) table) with (@nil Scan); [done|].
  symmetry. induction table as [|r table IH]; [done|].
  rewrite filter_cons_False by (apply Hnone; left).
  apply IH. intros r' Hr'. apply Hnone. by right.
Qed.

(** Splits a run of a read route into its paths. *)
Ltac read_runs Hrun :=
  unfold list_route, get_route in Hrun;
  destruct (requireAuth _) as [?s|] eqn:?Hs;
  run_route in Hrun; repeat (case_match; simplify_eq/=); simplify_eq/=.

Section ReadRuns.
Context {Buffer : Type} `{!BufferOps Buffer} `{!UuidSyntax} (env : Env Buffer).
Implicit Types (w : World Buffer) (request : Request Buffer).

(** X5. The two read routes never change what is stored: whatever the
    outcome of GET /api/scans or GET /api/scans/:id (a reply, no session, a
    thrown failure), the objects, the rows and the clock are as before, and
    the only calls begun are queries and the signing of a link. *)
Theorem read_routes_change_nothing request w :
  let '(r1, w1) := list_route env request w in
  let '(r2, w2) := get_route env request w in
  (objects w1 = objects w /\ rows w1 = rows w /\ now w1 = now w) /\
  (objects w2 = objects w /\ rows w2 = rows w /\ now w2 = now w) /\
  exists new1 new2,
    trace w1 = trace w ++ new1 /\
    trace w2 = trace w ++ new2 /\
    forallb is_read_call (calls_begun new1) = true /\
    forallb is_read_call (calls_begun new2) = true.
Proof.
  destruct (list_route env request w) as [r1 w1] eqn:Hlist.
  destruct (get_route env request w) as [r2 w2] eqn:Hget.
  read_runs Hlist; read_runs Hget;
    (split; [done|]); (split; [done|]);
    (eexists _, _; split; [trace_grows|]; split; [trace_grows|]; done).
Qed.

(** X6. What GET /api/scans/:id can answer, in every run.  A reply of the
    handler's own is only sent when the id of the request is a uuid.  A 200
    reply is then always a row of the table that has that uuid, however the
    request spells it, and belongs to the session's user, with its link
    signed now; a 403 reply means the row of that uuid belongs to someone
    else and a 404 reply that no row has it, and both carry only an error
    message.  Nothing is answered without a session; and what is thrown is
    a database or a storage failure, or the refusal of an id that is not a
    uuid. *)
Theorem get_route_outcomes request w :
  match fst (get_route env request w) with
  | Ok AuthReplied => requireAuth request = None
  | Ok (Send status body) =>
      exists s u,
        requireAuth request = Some s /\
        uuid_in (req_id request) = Some u /\
        ((status = 200%N /\
          exists row,
            row ∈ rows w /\
            scan_id row = u /\
            scan_userId row = user_id s /\
            body = spread_with (scan_object row) "imageUrl"
                     (VStr (signed_url env (now w) (scan_imageKey row)))) \/
         (status = 403%N /\
          body = error_body "Unauthorized" /\
          exists row,
            row ∈ rows w /\ scan_id row = u /\
            scan_userId row <> user_id s) \/
         (status = 404%N /\
          body = error_body "Scan not found" /\
          forall row, row ∈ rows w -> scan_id row <> u))
  | Throw e =>
      is_Some (requireAuth request) /\
      (e = DatabaseFailure \/ e = StorageFailure \/
       (e = InvalidTextRepresentation /\ uuid_in (req_id request) = None))
  end.
Proof.
  destruct (get_route env request w) as [r w'] eqn:Hrun. simpl.
  read_runs Hrun; try done;
    try (split; [done|];
         first [by left | by right; left | by right; right]);
    eexists _, _; (split; [reflexivity|]); (split; [reflexivity|]).
  - right. left. split; [done|]. split; [done|].
    match goal with H : select_by_id _ _ = Some _ |- _ =>
      apply select_by_id_Some in H as [? ?] end.
    eexists. split; [eassumption|]. split; [done|].
    by match goal with H : bool_decide _ = true |- _ =>
         apply bool_decide_eq_true in H end.
  - left. split; [done|].
    match goal with H : select_by_id _ _ = Some _ |- _ =>
      apply select_by_id_Some in H as [? ?] end.
    eexists. split; [eassumption|]. split; [done|].
    split; [|reflexivity].
    match goal with H : bool_decide _ = false |- _ =>
      apply bool_decide_eq_false in H end.
    by destruct (decide (scan_userId s0 = user_id s)).
  - right. right. split; [done|]. split; [done|].
    intros row. by apply select_by_id_None.
Qed.

(** X7. GET /api/scans for a user who owns no row is not an error: when the
    query does not throw, the reply is 200 with an empty list. *)
Theorem list_route_of_no_scans request w s :
  requireAuth request = Some s ->
  fault env (DbFindMany (user_id s)) = false ->
  (forall r, r ∈ rows w -> scan_userId r <> user_id s) ->
  fst (list_route env request w) = Ok (Send 200 (VArr [])).
Proof.
  intros Hs Hquery Hnone.
  unfold list_route. rewrite Hs. run_route. rewrite Hquery. simpl.
  by rewrite (select_by_user_none _ _ Hnone).
Qed.
End ReadRuns.

(** ** Uploads followed by reads *)

Section UploadThenRead.
Context {Buffer : Type} `{!BufferOps Buffer} `{!UuidSyntax}.
Implicit Types (w : World Buffer) (request : Request Buffer) (env : Env Buffer).

Lemma select_by_user_snoc_other uid table row :
  scan_userId row <> uid ->
  select_by_user uid (table ++ [row]) = select_by_user uid table.
Proof.
  intros Hother. unfold select_by_user.
  by rewrite filter_app, filter_cons_False, filter_nil, app_nil_r.
Qed.

Lemma select_by_user_snoc_own uid table row :
  scan_userId row = uid ->
  select_by_user uid (table ++ [row]) ≡ₚ row :: select_by_user uid table.
Proof.
  intros Hown. rewrite !select_by_user_perm.
  rewrite filter_app, filter_cons_True, filter_nil by done.
  by rewrite <- Permutation_cons_append.
Qed.

(** X8. A scan that was uploaded can be fetched back.  After an upload
    answered with 200 (on a table where id is a key), a later
    GET /api/scans/:id with the scanId of the reply, by the same user, whose
    lookup and signing do not throw, is answered with 200 and a record of
    that id and user, the durable key, the seven analysis values of the
    upload's reply, and a link signed at the time of the read; the same
    request by any other user is answered with 403. *)
Theorem uploaded_scan_is_fetched_back env env' request w body w' t :
  upload_route env request w = (Ok (Send 200 body), w') ->
  NoDup (map scan_id (rows w)) ->
  exists s data scanId a,
    requireAuth request = Some s /\
    request_file request = Ok (Some data) /\
    get "scanId" body = VStr scanId /\
    get "analysis" body = analysis_object a /\
    (fault env' (DbFindFirst scanId) = false ->
     fault env' (StorageGetSignedUrl (durable_key env s data w)) = false ->
     exists record,
       fst (get_route env' (scan_request s scanId) (at_time t w')) =
         Ok (Send 200 record) /\
       get "id" record = VStr scanId /\
       get "userId" record = VStr (user_id s) /\
       get "imageKey" record = VStr (durable_key env s data w) /\
       get "imageUrl" record =
         VStr (signed_url env' t (durable_key env s data w)) /\
       forall field, field ∈ analysis_fields ->
         get field record = get field (analysis_object a)) /\
    (forall s',
       user_id s' <> user_id s ->
       fault env' (DbFindFirst scanId) = false ->
       fst (get_route env' (scan_request s' scanId) (at_time t w')) =
         Ok (Send 403 (error_body "Unauthorized"))).
Proof.
  intros Hrun Hkey.
  pose proof (upload_route_keeps_key env _ _ _ _ Hkey Hrun) as Hkey'.
  destruct (upload_route_200_inv env _ _ _ _ Hrun)
    as (s & data & a & Hs & Hf & Hsize & Hok).
  rewrite (upload_route_success env request w s data a) in Hrun by done.
  injection Hrun as <- <-.
  exists s, data, (scan_id (inserted_row env s data w a)), a.
  split; [done|]. split; [done|]. split; [done|]. split; [done|].
  simpl in Hkey'.
  assert (select_by_id (scan_id (inserted_row env s data w a))
            (rows w ++ [inserted_row env s data w a])
          = Some (inserted_row env s data w a)) as Hfind.
  { apply select_by_id_unique; [done|]. apply elem_of_app. right. left. }
  split.
  - intros Hlookup Hsign.
    unfold get_route. simpl in *. run_route. rewrite Hlookup. simpl.
    rewrite (random_uuid_read env). simpl.
    rewrite Hfind. simpl.
    rewrite bool_decide_eq_false_2 by (intros Hne; by apply Hne). simpl.
    unfold fresh_url in Hsign |- *. rewrite Hsign. simpl.
    eexists. split; [reflexivity|].
    split; [reflexivity|]. split; [reflexivity|]. split; [reflexivity|].
    split; [reflexivity|].
    intros field Hfield. unfold analysis_fields in Hfield.
    repeat (apply elem_of_cons in Hfield as [->|Hfield]; [reflexivity|]).
    by apply elem_of_nil in Hfield.
  - intros s' Hother Hlookup.
    unfold get_route. simpl in *. run_route. rewrite Hlookup. simpl.
    rewrite (random_uuid_read env). simpl.
    rewrite Hfind. simpl.
    by rewrite bool_decide_eq_true_2 by (simpl; congruence).
Qed.

(** X9. A scan that was uploaded appears in its owner's list and in nobody
    else's.  After an upload answered with 200, a later GET /api/scans by
    the same user whose query does not throw lists the new row together
    with exactly the rows it would have listed before; for every other user
    the reply is the one the table before the upload would have given. *)
Theorem uploaded_scan_is_listed env env' request w body w' t :
  upload_route env request w = (Ok (Send 200 body), w') ->
  exists s row,
    requireAuth request = Some s /\
    rows w' = rows w ++ [row] /\
    get "scanId" body = VStr (scan_id row) /\
    (fault env' (DbFindMany (user_id s)) = false ->
     exists scans,
       fst (list_route env' (scan_request s "") (at_time t w')) =
         Ok (Send 200 (VArr (map scan_object scans))) /\
       row ∈ scans /\
       scans ≡ₚ row :: select_by_user (user_id s) (rows w)) /\
    (forall s',
       user_id s' <> user_id s ->
       fst (list_route env' (scan_request s' "") (at_time t w')) =
       fst (list_route env' (scan_request s' "") (at_time t w))).
Proof.
  intros Hrun.
  destruct (upload_route_200_inv env _ _ _ _ Hrun)
    as (s & data & a & Hs & Hf & Hsize & Hok).
  rewrite (upload_route_success env request w s data a) in Hrun by done.
  injection Hrun as <- <-.
  exists s, (inserted_row env s data w a).
  split; [done|]. split; [done|]. split; [done|].
  split.
  - intros Hquery. unfold list_route. simpl. run_route. rewrite Hquery. simpl.
    eexists. split; [reflexivity|].
    assert (select_by_user (user_id s) (rows w ++ [inserted_row env s data w a])
              ≡ₚ inserted_row env s data w a :: select_by_user (user_id s) (rows w))
      as Hperm by (by apply select_by_user_snoc_own).
    split; [|done]. rewrite Hperm. left.
  - intros s' Hother. unfold list_route. simpl. run_route.
    destruct (fault env' (DbFindMany (user_id s'))); simpl; [done|].
    rewrite select_by_user_snoc_other; [done|].
    simpl. congruence.
Qed.
End UploadThenRead.

(** ** Sequences of requests *)

Section Sequences.
Context {Buffer : Type} `{!BufferOps Buffer} `{!UuidSyntax}.
Implicit Types (w : World Buffer) (env : Env Buffer).

Lemma upload_route_objects_kept env (request : Request Buffer) w r w' k :
  upload_route env request w = (r, w') ->
  is_Some (objects w !! k) -> is_Some (objects w' !! k).
Proof.
  intros Hrun Hk. upload_runs Hrun; try done;
    (destruct (decide (stored_key env (upload_key s (now w) data) = k)) as [<-|];
     [by rewrite lookup_insert_eq | by rewrite lookup_insert_ne]).
Qed.

Lemma upload_route_rows_200 env (request : Request Buffer) w r w' :
  upload_route env request w = (r, w') ->
  (exists body row,
     r = Ok (Send 200 body) /\ rows w' = rows w ++ [row] /\
     scan_id row ∉ map scan_id (rows w))
  \/ ((forall body, r <> Ok (Send 200 body)) /\ rows w' = rows w).
Proof.
  intros Hrun.
  upload_runs Hrun;
    try (right; split; [intros body; congruence | reflexivity]).
  left. eexists _, _. split; [reflexivity|]. split; [reflexivity|].
  by match goal with H : bool_decide _ = false |- _ =>
       apply bool_decide_eq_false in H end.
Qed.

Lemma read_routes_state env (request : Request Buffer) w r w' :
  list_route env request w = (r, w') \/ get_route env request w = (r, w') ->
  objects w' = objects w /\ rows w' = rows w.
Proof. intros [Hrun|Hrun]; read_runs Hrun; done. Qed.

(** What one arrival does to the rows and the objects. *)
Lemma handle_step (a : Arrival Buffer) w r w' :
  handle (arr_env a) (arr_request a) (at_time (arr_time a) w) = (r, w') ->
  (forall k, is_Some (objects w !! k) -> is_Some (objects w' !! k)) /\
  ((is_created a r = true /\
    exists row, rows w' = rows w ++ [row] /\ scan_id row ∉ map scan_id (rows w))
   \/ (is_created a r = false /\ rows w' = rows w)).
Proof.
  unfold handle, is_created. intros Hrun.
  destruct (arr_request a) as [request|request|request].
  - split.
    + intros k Hk. by apply (upload_route_objects_kept _ _ _ _ _ k Hrun).
    + destruct (upload_route_rows_200 _ _ _ _ _ Hrun)
        as [(body & row & -> & Hrows & Hfresh)|[Hnot Hrows]].
      * left. split; [done|]. by exists row.
      * right. split; [|done]. destruct r as [[status body|]|]; try done.
        destruct (N.eqb_spec status 200) as [->|]; [|done].
        by destruct (Hnot body).
  - destruct (read_routes_state _ _ _ _ _ (or_introl Hrun)) as [Hobj Hrows].
    split; [intros k; by rewrite Hobj|]. right. split; [|done].
    by destruct r as [[]|].
  - destruct (read_routes_state _ _ _ _ _ (or_intror Hrun)) as [Hobj Hrows].
    split; [intros k; by rewrite Hobj|]. right. split; [|done].
    by destruct r as [[]|].
Qed.

(** X10. Whatever requests arrive and however the collaborators answer,
    when they are handled one after another from a table where id is a key:
    every arrival gets its reply, id is still a key, the rows that were
    there are still there, unchanged and in place, with one row more for
    each upload answered with 200 and for nothing else, and no stored object
    has been removed. *)
Theorem serve_keeps_scans (arrivals : list (Arrival Buffer)) w :
  NoDup (map scan_id (rows w)) ->
  let '(replies, w') := serve arrivals w in
  length replies = length arrivals /\
  NoDup (map scan_id (rows w')) /\
  rows w `prefix_of` rows w' /\
  length (rows w') = (length (rows w) + count_created arrivals replies)%nat /\
  (forall k, is_Some (objects w !! k) -> is_Some (objects w' !! k)).
Proof.
  revert w. induction arrivals as [|a arrivals IH]; intros w Hkey; simpl.
  - split; [done|]. split; [done|]. split; [done|]. split; [lia|]. done.
  - destruct (handle _ _ _) as [r w1] eqn:Hstep.
    apply handle_step in Hstep as [Hobj Hrows].
    assert (NoDup (map scan_id (rows w1))) as Hkey1.
    { destruct Hrows as [(_ & row & -> & Hfresh)|[_ ->]]; [|done].
      rewrite map_app. apply NoDup_app. split; [done|]. split.
      - intros i Hi Hrow. simpl in Hrow.
        apply list_elem_of_singleton in Hrow. by subst.
      - apply NoDup_singleton. }
    specialize (IH w1 Hkey1).
    destruct (serve arrivals w1) as [replies w2].
    destruct IH as (Hlen & Hkey2 & Hprefix & Hcount & Hobj2).
    split; [simpl; lia|]. split; [done|].
    split; [|split].
    + destruct Hrows as [(_ & row & Hrow & _)|[_ Hrow]].
      * trans (rows w1); [|exact Hprefix]. rewrite Hrow. by apply prefix_app_r.
      * by rewrite <- Hrow.
    + destruct Hrows as [(-> & row & Hrow & _)|[-> Hrow]];
        rewrite Hcount, Hrow, ?length_app; simpl; lia.
    + intros k Hk. by apply Hobj2, Hobj.
Qed.
End Sequences.

(** ** Storage keys *)

Lemma append_length a b :
  String.length (a +:+ b) = (String.length a + String.length b)%nat.
Proof. induction a as [|c a IH]; simpl; [done|]. by rewrite IH. Qed.

Lemma append_inv_tail x y z : x +:+ z = y +:+ z -> x = y.
Proof.
  revert y. induction x as [|c x IH]; intros [|d y] Heq; simpl in *.
  - done.
  - apply (f_equal String.length) in Heq.
    rewrite ?append_length in Heq. simpl in Heq.
    rewrite ?append_length in Heq. lia.
  - apply (f_equal String.length) in Heq.
    rewrite ?append_length in Heq. simpl in Heq.
    rewrite ?append_length in Heq. lia.
  - injection Heq as -> Heq. f_equal. by apply IH.
Qed.

(** Two texts without [c], each followed by [c], start alike only if they
    are the same text. *)
Lemma split_at_first c u1 u2 r1 r2 :
  has_char c u1 = false -> has_char c u2 = false ->
  u1 +:+ String c r1 = u2 +:+ String c r2 -> u1 = u2 /\ r1 = r2.
Proof.
  revert u2. induction u1 as [|a u1 IH]; intros [|b u2] H1 H2 Heq; simpl in *.
  - by injection Heq as ->.
  - injection Heq as <- _. by rewrite bool_decide_eq_true_2 in H2.
  - injection Heq as -> _. by rewrite bool_decide_eq_true_2 in H1.
  - injection Heq as -> Heq.
    apply orb_false_iff in H1 as [_ H1]. apply orb_false_iff in H2 as [_ H2].
    destruct (IH u2 H1 H2 Heq) as [-> ->]. done.
Qed.

Section StorageKeys.
Context {Buffer : Type}.
Implicit Types (d : FilePart Buffer) (s : Session).

(** X11. Storage keys do not collide across users or across upload times:
    for users whose ids contain no slash, the keys of two different users
    are always different, and for one user and one file name the keys of two
    different upload times are different. *)
Theorem upload_keys_do_not_collide s1 s2 t1 t2 d1 d2 :
  has_char "/" (user_id s1) = false ->
  has_char "/" (user_id s2) = false ->
  (user_id s1 <> user_id s2 -> upload_key s1 t1 d1 <> upload_key s2 t2 d2) /\
  (user_id s1 = user_id s2 -> filename d1 = filename d2 -> t1 <> t2 ->
   upload_key s1 t1 d1 <> upload_key s2 t2 d2).
Proof.
  intros Hs1 Hs2. unfold upload_key. split.
  - intros Hne Heq. apply (inj (String.app "scans/")) in Heq.
    by destruct (split_at_first _ _ _ _ _ Hs1 Hs2 Heq).
  - intros Hu Hf Hne Heq. rewrite Hu, Hf in Heq.
    apply (inj (String.app "scans/")) in Heq.
    apply (inj (String.app (user_id s2))) in Heq.
    apply (inj (String.app "/")) in Heq.
    apply append_inv_tail in Heq.
    by apply (inj pretty) in Heq.
Qed.
End StorageKeys.

(** ** The analysis schema *)

Lemma z_string_Some v s : z_string v = Some s <-> v = VStr s.
Proof. destruct v; simpl; split; congruence. Qed.

Lemma z_boolean_Some v b : z_boolean v = Some b <-> v = VBool b.
Proof. destruct v; simpl; split; congruence. Qed.

Lemma z_enum_confidence_Some v c :
  z_enum_confidence v = Some c <-> v = VStr (confidence_text c).
Proof.
  split.
  - destruct v; simpl; try done. repeat case_decide; intros [= <-]; by subst.
  - intros ->. by destruct c.
Qed.

(** A parsed analysis holds what the seven fields of the input hold. *)
Lemma analysisSchema_fields input a :
  analysisSchema input = Some a ->
  (exists props, input = VObj props) /\
  get "species" input = VStr (species a) /\
  get "commonName" input = VStr (commonName a) /\
  get "isSafeToEat" input = VBool (isSafeToEat a) /\
  get "isSafeToTouch" input = VBool (isSafeToTouch a) /\
  get "confidence" input = VStr (confidence_text (confidence a)) /\
  get "warnings" input = VStr (warnings a) /\
  get "description" input = VStr (description a).
Proof.
  intros Hparse. destruct input as [| | | | | | |props]; try done.
  split; [by eexists|]. unfold analysisSchema in Hparse.
  destruct (z_string (get "species" _)) as [sp|] eqn:H1; [|done].
  destruct (z_string (get "commonName" _)) as [cn|] eqn:H2; [|done].
  destruct (z_boolean (get "isSafeToEat" _)) as [eat|] eqn:H3; [|done].
  destruct (z_boolean (get "isSafeToTouch" _)) as [touch|] eqn:H4; [|done].
  destruct (z_enum_confidence (get "confidence" _)) as [conf|] eqn:H5; [|done].
  destruct (z_string (get "warnings" _)) as [wn|] eqn:H6; [|done].
  destruct (z_string (get "description" _)) as [ds|] eqn:H7; [|done].
  simpl in Hparse. injection Hparse as <-. simpl.
  apply z_string_Some in H1, H2, H6, H7.
  apply z_boolean_Some in H3, H4. apply z_enum_confidence_Some in H5.
  done.
Qed.

(** X12. [analysisSchema] accepts exactly the objects whose seven fields
    have the declared types, and what it returns is what those fields hold:
    an input parses to [a] if and only if it is an object whose species,
    commonName, warnings and description are the strings of [a], whose
    isSafeToEat and isSafeToTouch are the booleans of [a], and whose
    confidence is the text of [a]'s level.  A missing field, a field of
    another type or a confidence other than high, medium or low makes the
    parse fail. *)
Theorem analysisSchema_accepts_exactly input a :
  analysisSchema input = Some a <->
  (exists props, input = VObj props) /\
  get "species" input = VStr (species a) /\
  get "commonName" input = VStr (commonName a) /\
  get "isSafeToEat" input = VBool (isSafeToEat a) /\
  get "isSafeToTouch" input = VBool (isSafeToTouch a) /\
  get "confidence" input = VStr (confidence_text (confidence a)) /\
  get "warnings" input = VStr (warnings a) /\
  get "description" input = VStr (description a).
Proof.
  split; [apply analysisSchema_fields|].
  intros ([props ->] & H1 & H2 & H3 & H4 & H5 & H6 & H7).
  apply z_string_Some in H1, H2, H6, H7.
  apply z_boolean_Some in H3, H4. apply z_enum_confidence_Some in H5.
  unfold analysisSchema. rewrite H1, H2, H3, H4, H5, H6, H7. simpl.
  by destruct a.
Qed.

(** X13. What [analysisSchema] lets through is the input cut down to the
    schema: the validated object has exactly the seven keys, each with the
    value the input had, every other key of the input is gone, and the
    object validates again to the same analysis. *)
Theorem analysisSchema_strips_other_keys input a :
  analysisSchema input = Some a ->
  keys (analysis_object a) = analysis_fields /\
  (forall field, field ∈ analysis_fields ->
     get field (analysis_object a) = get field input) /\
  (forall key, key ∉ analysis_fields ->
     get key (analysis_object a) = VUndefined) /\
  analysisSchema (analysis_object a) = Some a.
Proof.
  intros Hparse.
  apply analysisSchema_fields in Hparse
    as (_ & H1 & H2 & H3 & H4 & H5 & H6 & H7).
  split; [done|]. split; [|split].
  - intros field Hfield. unfold analysis_fields in Hfield.
    repeat (apply elem_of_cons in Hfield as [->|Hfield]; [by simpl|]).
    by apply elem_of_nil in Hfield.
  - intros key Hkey. unfold analysis_fields in Hkey. simpl.
    repeat (case_decide; [subst; exfalso; apply Hkey; set_solver|]).
    done.
  - apply analysis_object_parses.
Qed.

(** ** The client's screen *)

(** With nothing else happening before the answer, the two halves of
    [analyzePlant] make up the handler. *)
Lemma analyzePlant_in_one_go fetch screen :
  analyzePlant fetch screen =
  match analyzePlant_begin screen with
  | (started, Some upload) =>
      analyzePlant_resume (kept_image upload) (fetch (posted upload)) started
  | (stopped, None) => stopped
  end.
Proof.
  destruct screen as [[selected|] who analyzing result raised]; [|done].
  unfold analyzePlant, analyzePlant_begin. simpl.
  case_bool_decide; [done|].
  destruct who; [|done].
  unfold analyzePlant_resume.
  destruct (fetch _) as [status uploadData|message]; [|done].
  destruct (response_ok status); [|done].
  by destruct uploadData.
Qed.

Lemma screen_run_app u events more :
  screen_run u (events ++ more) = foldl screen_step (screen_run u events) more.
Proof. unfold screen_run. by rewrite foldl_app. Qed.

Lemma screen_run_snoc u events e :
  screen_run u (events ++ [e]) = screen_step (screen_run u events) e.
Proof. by rewrite screen_run_app. Qed.

Lemma tapped_with_snoc u events e selected :
  tapped_with u events selected -> tapped_with u (events ++ [e]) selected.
Proof.
  intros (before & after & -> & Hselected).
  exists before, (after ++ [e]). split; [|done].
  by rewrite <- app_assoc.
Qed.

Lemma screen_step_invariant u events e :
  screen_invariant u events -> screen_invariant u (events ++ [e]).
Proof.
  unfold screen_invariant. cbv zeta. rewrite screen_run_snoc.
  intros (Huser & Hflight & Hresult).
  assert (Forall (fun upload => kept_image upload <> "" /\
                    posted upload = form_file (kept_image upload) /\
                    tapped_with u (events ++ [e]) (kept_image upload))
            (in_flight (screen_run u events))) as Hflight'.
  { eapply Forall_impl; [exact Hflight|].
    intros upload (? & ? & ?). auto using tapped_with_snoc. }
  assert (forall more result,
            scanResult (shown (screen_run u events)) = Some result ->
            exists selected status uploadData,
              tapped_with u (events ++ [e]) selected /\
              selected <> "" /\
              (form_file selected, Responded status uploadData)
                ∈ answered (screen_run u events) ++ more /\
              response_ok status = true /\
              result = scan_result_of uploadData selected) as Hkept.
  { intros more result Hshown.
    destruct (Hresult result Hshown)
      as (selected & status & body & Htap & Hne & Hin & Hrest).
    exists selected, status, body.
    split; [by apply tapped_with_snoc|]. split; [done|].
    split; [|done]. apply elem_of_app. by left. }
  assert (forall result,
            scanResult (shown (screen_run u events)) = Some result ->
            exists selected status uploadData,
              tapped_with u (events ++ [e]) selected /\
              selected <> "" /\
              (form_file selected, Responded status uploadData)
                ∈ answered (screen_run u events) /\
              response_ok status = true /\
              result = scan_result_of uploadData selected) as Hsame.
  { intros result Hshown.
    destruct (Hkept [] result Hshown) as (selected & status & body & Hrest).
    rewrite app_nil_r in Hrest. by exists selected, status, body. }
  set (st := screen_run u events) in *.
  destruct e as [[]|[] []| | |n answer]; simpl; try done.
  - unfold analyzePlant_begin.
    destruct (selectedImage (shown st)) as [selected|] eqn:Hselected; [|done].
    case_bool_decide as Hempty; [done|].
    destruct (user (shown st)); [|done].
    split; [done|]. split; [|done].
    apply Forall_app. split; [done|]. apply Forall_singleton. simpl.
    split; [done|]. split; [done|].
    exists events, []. done.
  - destruct (in_flight st !! n) as [[file selected]|] eqn:Hn; [|done].
    destruct (Forall_lookup_1 _ _ _ _ Hflight' Hn) as (Hselected & Hfile & Htap).
    simpl in Hselected, Hfile, Htap. subst file.
    split; [|split].
    + simpl. unfold analyzePlant_resume.
      repeat (case_match; simpl; try done).
    + simpl. by apply Forall_delete.
    + simpl. unfold analyzePlant_resume.
      destruct answer as [status uploadData|message]; [|apply Hkept].
      destruct (response_ok status) eqn:Hok; [|apply Hkept].
      destruct uploadData; simpl; try apply Hkept;
        intros result [= <-];
        eexists selected, status, _;
        (split; [exact Htap|]); (split; [exact Hselected|]);
        (split; [apply elem_of_app; right; left|]); done.
Qed.

(** X14. On the home screen a result on display was always built from an
    answer to an upload of this screen: after any series of picks, photos,
    resets, taps on Analyze and answers to the uploads under way, in any
    order, Analyze was tapped at some point while an image with a
    non-empty address was on display, the file [analyzePlant] posted for
    that image was answered with an ok status, and the result shown is the
    one the handler builds from that answer and that image.  The signed-in
    user is the one the screen started with. *)
Theorem shown_result_answers_an_upload u events :
  let st := screen_run u events in
  user (shown st) = u /\
  forall result,
    scanResult (shown st) = Some result ->
    exists before after selected status uploadData,
      events = before ++ AnalyzeTapped :: after /\
      selectedImage (shown (screen_run u before)) = Some selected /\
      selected <> "" /\
      (form_file selected, Responded status uploadData) ∈ answered st /\
      response_ok status = true /\
      result = scan_result_of uploadData selected.
Proof.
  cbv zeta.
  assert (screen_invariant u events) as (Huser & _ & Hresult).
  { induction events as [|e events IH] using rev_ind.
    - split; [done|]. split; [apply Forall_nil_2 | done].
    - by apply screen_step_invariant. }
  split; [done|]. intros result Hshown.
  destruct (Hresult result Hshown)
    as (selected & status & body & (before & after & ? & ?) & Hrest).
  by exists before, after, selected, status, body.
Qed.

(** X25. That image need not be the one on display.  When Reset is tapped
    while an upload is under way and the answer then arrives, ok and with a
    body, the result built for the uploaded image is put on display although
    no image is selected any more; and it stays when another image is
    picked before the answer arrives. *)
Theorem reset_during_upload_leaves_result u events n upload status uploadData :
  in_flight (screen_run u events) !! n = Some upload ->
  response_ok status = true ->
  uploadData <> VNull ->
  uploadData <> VUndefined ->
  let answer := UploadAnswered n (Responded status uploadData) in
  let result := Some (scan_result_of uploadData (kept_image upload)) in
  (let st := screen_run u (events ++ [ResetTapped; answer]) in
   selectedImage (shown st) = None /\ scanResult (shown st) = result) /\
  (forall other,
     let st := screen_run u
                 (events ++ [ResetTapped; ImagePicked (Picked other); answer]) in
     selectedImage (shown st) = Some other /\ scanResult (shown st) = result).
Proof.
  intros Hn Hok Hnull Hundefined. cbv zeta.
  split; [|intros other];
    rewrite screen_run_app; simpl; rewrite Hn; simpl;
    unfold analyzePlant_resume; rewrite Hok; simpl;
    by destruct uploadData.
Qed.

Section UploadFromTheScreen.
Context {Buffer : Type} `{!BufferOps Buffer} `{!UuidSyntax} (env : Env Buffer).

(** The replies of the upload route: 200, or one of the two rejections. *)
Lemma upload_route_statuses (request : Request Buffer) w status body w' :
  upload_route env request w = (Ok (Send status body), w') ->
  status = 200%N \/
  (status = 400%N /\ body = error_body "No file provided") \/
  (status = 413%N /\ body = error_body "File too large").
Proof. intros Hrun. upload_runs Hrun; auto. Qed.

(** X15. A rejected upload wipes the screen's result.  When the upload
    route answers the client's request with anything but 200 (that is, with
    400 for a missing file or 413 for a file over the cap), [analyzePlant]
    raises the alert "Upload failed" with that status, leaves no result on
    display, even if one was shown before, and keeps the selected image. *)
Theorem rejected_upload_clears_result
    (request : Request Buffer) w w' status body fetch screen selected u :
  upload_route env request w = (Ok (Send status body), w') ->
  status <> 200%N ->
  selectedImage screen = Some selected ->
  selected <> "" ->
  user screen = Some u ->
  fetch (form_file selected) = Responded status body ->
  (status = 400%N \/ status = 413%N) /\
  scanResult (analyzePlant fetch screen) = None /\
  alert (analyzePlant fetch screen) = Some (ErrorAlert (UploadFailed status)) /\
  isAnalyzing (analyzePlant fetch screen) = false /\
  selectedImage (analyzePlant fetch screen) = Some selected.
Proof.
  intros Hrun Hstatus Hsel Hne Huser Hfetch.
  unfold analyzePlant. rewrite Hsel, Huser, Hfetch.
  rewrite bool_decide_eq_false_2 by done.
  destruct (upload_route_statuses _ _ _ _ _ Hrun) as [->|[[-> _]|[-> _]]];
    [done|..]; simpl; auto.
Qed.
End UploadFromTheScreen.

(** X16. [analyzePlant] sends nothing unless an image is selected and a
    user is signed in: with no image, or an image of empty address, the
    screen is left exactly as it was, and with an image but nobody signed
    in the only change is the "Authentication Required" alert; in both
    cases what the network would have answered plays no part. *)
Theorem analyzePlant_needs_image_and_user fetch screen :
  (selectedImage screen = None \/ selectedImage screen = Some "" ->
   analyzePlant fetch screen = screen) /\
  (forall selected,
     selectedImage screen = Some selected -> selected <> "" ->
     user screen = None ->
     analyzePlant fetch screen =
       {| selectedImage := Some selected;
          user := None;
          isAnalyzing := isAnalyzing screen;
          scanResult := scanResult screen;
          alert := Some AuthenticationRequired |}).
Proof.
  unfold analyzePlant. split.
  - by intros [->| ->].
  - intros selected -> Hne ->. by rewrite bool_decide_eq_false_2.
Qed.

(** X17. The defaults of [scan_result_of] never touch the safety flags.
    For a response body that itself validates against the analysis schema
    (the seven fields at the top level), the result shows exactly the
    body's isSafeToEat, isSafeToTouch, confidence and warnings, and its
    species, commonName and description unless they are empty, in which
    case "Unknown", "Unknown" and "No description available" are shown. *)
Theorem scan_result_of_flat_analysis uploadData a selected :
  analysisSchema uploadData = Some a ->
  let result := scan_result_of uploadData selected in
  res_isSafeToEat result = VBool (isSafeToEat a) /\
  res_isSafeToTouch result = VBool (isSafeToTouch a) /\
  res_confidence result = VStr (confidence_text (confidence a)) /\
  res_warnings result = VStr (warnings a) /\
  res_species result =
    VStr (if bool_decide (species a = "") then "Unknown" else species a) /\
  res_commonName result =
    VStr (if bool_decide (commonName a = "") then "Unknown" else commonName a) /\
  res_description result =
    VStr (if bool_decide (description a = "") then "No description available"
          else description a).
Proof.
  intros Hparse.
  apply analysisSchema_fields in Hparse as (_ & H1 & H2 & H3 & H4 & H5 & H6 & H7).
  simpl. rewrite H1, H2, H3, H4, H5, H6, H7. unfold js_or. simpl.
  repeat split.
  - by destruct (isSafeToEat a).
  - by destruct (isSafeToTouch a).
  - by destruct (confidence a).
  - by case_bool_decide as Hw; [rewrite Hw|].
  - by case_bool_decide.
  - by case_bool_decide.
  - by case_bool_decide.
Qed.

(** ** The form the client sends *)

Lemma append_empty_r s : s +:+ "" = s.
Proof.
  induction s as [|c s IH]; [done|].
  change (String c (s +:+ "") = String c s). by rewrite IH.
Qed.

Lemma append_snoc segment c s :
  (segment +:+ String c "") +:+ s = segment +:+ String c s.
Proof.
  induction segment as [|d segment IH]; [done|].
  change (String d ((segment +:+ String c "") +:+ s)
          = String d (segment +:+ String c s)).
  by rewrite IH.
Qed.

Lemma last_segment_no_dot s segment :
  has_char "." s = false -> last_segment s segment = segment +:+ s.
Proof.
  revert segment. induction s as [|c s IH]; intros segment Hs; simpl in *.
  - by rewrite append_empty_r.
  - apply orb_false_iff in Hs as [Hc Hs].
    apply bool_decide_eq_false in Hc.
    destruct (decide (c = "."%char)) as [Hdot|_]; [by destruct Hc|].
    rewrite IH by done. apply append_snoc.
Qed.

Lemma last_segment_after_dot prefix rest segment :
  last_segment (prefix +:+ String "." rest) segment = last_segment rest "".
Proof.
  revert segment. induction prefix as [|c prefix IH]; intros segment; simpl.
  - done.
  - destruct (decide (c = "."%char)); apply IH.
Qed.

(** X18. The file the client declares is named after the address's last
    dot-separated part: for an address [prefix.ext] whose [ext] has no dot,
    the form's file is called scan.ext and typed image/ext, whatever the
    prefix; and for an address without any dot the whole address is taken
    for the extension. *)
Theorem form_file_extension prefix ext :
  has_char "." ext = false ->
  form_file (prefix +:+ "." +:+ ext) =
    {| form_uri := prefix +:+ "." +:+ ext;
       form_type := "image/" +:+ ext;
       form_name := "scan." +:+ ext |} /\
  form_file ext =
    {| form_uri := ext;
       form_type := "image/" +:+ ext;
       form_name := "scan." +:+ ext |}.
Proof.
  intros Hext. unfold form_file.
  change ("." +:+ ext) with (String "." ext).
  by rewrite last_segment_after_dot, !last_segment_no_dot.
Qed.

(** ** The scan history *)

Section History.
Context {Buffer : Type} `{!BufferOps Buffer} `{!UuidSyntax} (env : Env Buffer).
Variable toISOString : Z -> string.

Lemma history_of_rows scans :
  mapM history_item (map (to_json toISOString) (map scan_object scans)) =
    Some (map (row_item toISOString) scans).
Proof.
  induction scans as [|r scans IH]; [done|].
  simpl in *. by rewrite IH.
Qed.

(** X19. The history screen shows the caller's scans, newest first, as the
    rows hold them.  When GET /api/scans is answered for a session whose
    query does not throw, [loadScanHistory] on that reply ends loading and
    sets the history to one item per row of the session's user, in the
    order of the reply (createdAt descending), each with the row's id,
    names, flags and confidence, its creation time as text, and the link
    stored in the row. *)
Theorem history_shows_own_scans_newest_first (request : Request Buffer) w s p u :
  requireAuth request = Some s ->
  fault env (DbFindMany (user_id s)) = false ->
  profile_user p = Some u ->
  exists body,
    fst (list_route env request w) = Ok (Send 200 body) /\
    loadScanHistory (Responded 200 (to_json toISOString body)) p =
      history_loaded
        (map (row_item toISOString) (select_by_user (user_id s) (rows w))) p.
Proof.
  intros Hs Hquery Hu.
  unfold list_route. rewrite Hs. run_route. rewrite Hquery. simpl.
  eexists. split; [reflexivity|].
  unfold loadScanHistory. rewrite Hu. simpl.
  by rewrite history_of_rows.
Qed.
End History.

(** X20. What [loadScanHistory] accepts and what it does on failure.  A
    body [{scans: [...]}] loads the same history as the bare array; with
    nobody signed in nothing happens; and a rejected request, a status that
    is not ok, or an ok body that is an object without [scans] (such as an
    error message) leaves the history as it was and ends loading. *)
Theorem loadScanHistory_shapes_and_failures p :
  (forall status scans,
     loadScanHistory (Responded status (VObj [("scans", VArr scans)])) p =
     loadScanHistory (Responded status (VArr scans)) p) /\
  (forall fetched, profile_user p = None -> loadScanHistory fetched p = p) /\
  (forall fetched,
     is_Some (profile_user p) ->
     isLoading (loadScanHistory fetched p) = false) /\
  (forall message,
     scanHistory (loadScanHistory (NetworkError message) p) = scanHistory p) /\
  (forall status data,
     response_ok status = false ->
     scanHistory (loadScanHistory (Responded status data) p) = scanHistory p) /\
  (forall status props,
     get "scans" (VObj props) = VUndefined ->
     scanHistory (loadScanHistory (Responded status (VObj props)) p) =
       scanHistory p).
Proof.
  unfold loadScanHistory. repeat split.
  - intros fetched ->. done.
  - intros fetched [u ->].
    destruct fetched as [status data|]; [|done].
    destruct (response_ok status); [|done]. simpl.
    destruct (history_source data) as [[]|]; try done.
    by destruct (mapM _ _).
  - intros message. by destruct (profile_user p).
  - intros status data ->. by destruct (profile_user p).
  - intros status props Hscans. destruct (profile_user p); [|done].
    destruct (response_ok status); [|done]. simpl in *.
    by rewrite Hscans.
Qed.

(** ** The tab bar *)

Lemma append_cons c a b : String c a +:+ b = String c (a +:+ b).
Proof. done. Qed.

Lemma append_assoc_string a b c : (a +:+ b) +:+ c = a +:+ (b +:+ c).
Proof.
  induction a as [|x a IH]; [done|]. by rewrite !append_cons, IH.
Qed.

Lemma starts_with_spec s sub :
  starts_with s sub = true <-> exists post, s = sub +:+ post.
Proof.
  revert s. induction sub as [|c sub IH]; intros s.
  - split; [by exists s|]. by destruct s.
  - destruct s as [|d s]; simpl.
    + split; [done|]. by intros [post ?].
    + rewrite andb_true_iff, bool_decide_eq_true, IH. split.
      * intros [-> [post ->]]. by exists post.
      * intros [post [= -> ->]]. split; [done|]. by exists post.
Qed.

Lemma includes_spec s sub :
  includes s sub = true <-> exists pre post, s = pre +:+ sub +:+ post.
Proof.
  induction s as [|d s IH].
  - change (includes "" sub) with (starts_with "" sub || false).
    rewrite orb_false_r, starts_with_spec. split.
    + intros [post Hs]. by exists "", post.
    + intros ([|] & post & Hs); [by exists post|done].
  - change (includes (String d s) sub)
      with (starts_with (String d s) sub || includes s sub).
    rewrite orb_true_iff, IH, starts_with_spec. split.
    + intros [[post Hs]|(pre & post & ->)].
      * by exists "", post.
      * by exists (String d pre), post.
    + intros ([|e pre] & post & Hs).
      * left. by exists post.
      * right. injection Hs as -> ->. by exists pre, post.
Qed.

Lemma findIndex_bounds {A} (p : A -> bool) l :
  -1 <= findIndex p l < Z.of_nat (length l).
Proof.
  induction l as [|x l IH]; simpl length; simpl findIndex; [lia|].
  destruct (p x); [lia|]. destruct (Z.ltb_spec (findIndex p l) 0); lia.
Qed.

Lemma findIndex_none {A} (p : A -> bool) l :
  findIndex p l = -1 <-> forall x, x ∈ l -> p x = false.
Proof.
  induction l as [|x l IH]; simpl.
  - split; [|done]. intros _ y Hy. by apply elem_of_nil in Hy.
  - pose proof (findIndex_bounds p l). destruct (p x) eqn:Hx.
    + split; [done|]. intros Hall. specialize (Hall x). rewrite Hx in Hall.
      by discriminate Hall; left.
    + destruct (Z.ltb_spec (findIndex p l) 0) as [Hneg|Hpos].
      * split; [|done]. intros _ y Hy.
        apply elem_of_cons in Hy as [->|Hy]; [done|].
        apply IH; [lia|done].
      * split; [lia|]. intros Hall.
        assert (findIndex p l = -1); [|lia].
        apply IH. intros y Hy. apply Hall. by right.
Qed.

Lemma findIndex_first {A} (p : A -> bool) l :
  0 <= findIndex p l ->
  exists x,
    l !! Z.to_nat (findIndex p l) = Some x /\ p x = true /\
    forall j y, (j < Z.to_nat (findIndex p l))%nat -> l !! j = Some y -> p y = false.
Proof.
  induction l as [|x l IH]; simpl; [lia|].
  destruct (p x) eqn:Hx.
  - intros _. exists x. split; [done|]. split; [done|]. intros j y Hj. simpl in Hj. lia.
  - destruct (Z.ltb_spec (findIndex p l) 0) as [Hneg|Hpos]; [lia|].
    intros _. destruct (IH Hpos) as (y & Hy & Hpy & Hbefore).
    exists y. rewrite Z2Nat.inj_add, Nat.add_1_r by lia. simpl.
    split; [done|]. split; [done|].
    intros [|j] z Hj Hz; simpl in Hz.
    + by injection Hz as <-.
    + apply (Hbefore j z); [lia|done].
Qed.

(** X21. The indicator starts under the first tab whose name occurs in the
    path.  If some tab's name occurs in the path, [activeIndex] is the
    position of the first such tab: that tab is highlighted and none before
    it is; otherwise [activeIndex] is -1, no tab is highlighted, and the
    indicator still starts under the first tab.  With at least one tab the
    starting position is always the position of a tab. *)
Theorem indicator_starts_under_first_active_tab pathname tabs :
  let i := activeIndex pathname tabs in
  (i = -1 <-> forall tab, tab ∈ tabs -> isActive pathname tab = false) /\
  (i = -1 -> indicatorPosition pathname tabs = 0) /\
  (i <> -1 ->
   indicatorPosition pathname tabs = i /\
   exists tab,
     tabs !! Z.to_nat i = Some tab /\ isActive pathname tab = true /\
     forall j other, (j < Z.to_nat i)%nat -> tabs !! j = Some other ->
       isActive pathname other = false) /\
  (tabs <> [] -> 0 <= indicatorPosition pathname tabs < Z.of_nat (length tabs)).
Proof.
  unfold indicatorPosition, activeIndex. simpl.
  pose proof (findIndex_bounds (isActive pathname) tabs) as Hbounds.
  split; [apply findIndex_none|]. split; [by intros ->|]. split.
  - intros Hfound.
    destruct (Z.leb_spec 0 (findIndex (isActive pathname) tabs)); [|lia].
    split; [done|]. by apply findIndex_first.
  - intros Hsome.
    destruct (Z.leb_spec 0 (findIndex (isActive pathname) tabs)); [lia|].
    destruct tabs; [done|]. simpl. lia.
Qed.

(** X22. More than one tab can be highlighted at once.  A tab whose name
    occurs inside the name of another tab is highlighted whenever that
    other tab is, and a tab with an empty name is highlighted on every
    path; the indicator sits under one tab only. *)
Theorem tab_named_inside_another_is_active_too pathname a b :
  includes (tab_name b) (tab_name a) = true ->
  isActive pathname b = true ->
  isActive pathname a = true.
Proof.
  unfold isActive. rewrite !includes_spec.
  intros (pre1 & post1 & ->) (pre2 & post2 & ->).
  exists (pre2 +:+ pre1), (post1 +:+ post2).
  by rewrite !append_assoc_string.
Qed.

(** ** The further properties at work on the concrete deployment *)

Lemma list_route_of_no_scans_witness :
  fst (list_route demo_env (bare_request carol "") history_world) =
    Ok (Send 200 (VArr [])).
Proof.
  apply (list_route_of_no_scans demo_env (bare_request carol "") history_world
           carol); [reflexivity | reflexivity |].
  intros r Hr. simpl in Hr.
  repeat (apply elem_of_cons in Hr as [->|Hr]; [discriminate|]).
  by apply elem_of_nil in Hr.
Defined.

Lemma empty_table_has_key : NoDup (map scan_id (rows empty_world)).
Proof. apply NoDup_nil_2. Qed.

Lemma uploaded_scan_is_fetched_back_witness :
  exists s data scanId a,
    requireAuth (upload_request alice 2048) = Some s /\
    request_file (upload_request alice 2048) = Ok (Some data) /\
    get "scanId" (nettle_reply "scans/alice/1700000000000-leaf.jpg") = VStr scanId /\
    get "analysis" (nettle_reply "scans/alice/1700000000000-leaf.jpg") =
      analysis_object a /\
    (fault demo_env (DbFindFirst scanId) = false ->
     fault demo_env (StorageGetSignedUrl (durable_key demo_env s data empty_world))
       = false ->
     exists record,
       fst (get_route demo_env (scan_request s scanId)
              (at_time 1700604800000 after_upload)) = Ok (Send 200 record) /\
       get "id" record = VStr scanId /\
       get "userId" record = VStr (user_id s) /\
       get "imageKey" record = VStr (durable_key demo_env s data empty_world) /\
       get "imageUrl" record =
         VStr (signed_url demo_env 1700604800000
                 (durable_key demo_env s data empty_world)) /\
       forall field, field ∈ analysis_fields ->
         get field record = get field (analysis_object a)) /\
    (forall s',
       user_id s' <> user_id s ->
       fault demo_env (DbFindFirst scanId) = false ->
       fst (get_route demo_env (scan_request s' scanId)
              (at_time 1700604800000 after_upload)) =
         Ok (Send 403 (error_body "Unauthorized"))).
Proof.
  apply (uploaded_scan_is_fetched_back demo_env demo_env
           (upload_request alice 2048) empty_world
           (nettle_reply "scans/alice/1700000000000-leaf.jpg") after_upload
           1700604800000).
  - vm_compute. reflexivity.
  - apply empty_table_has_key.
Defined.

Lemma uploaded_scan_is_listed_witness :
  exists s row,
    requireAuth (upload_request alice 2048) = Some s /\
    rows after_upload = rows empty_world ++ [row] /\
    get "scanId" (nettle_reply "scans/alice/1700000000000-leaf.jpg") =
      VStr (scan_id row) /\
    (fault demo_env (DbFindMany (user_id s)) = false ->
     exists scans,
       fst (list_route demo_env (scan_request s "")
              (at_time 1700604800000 after_upload)) =
         Ok (Send 200 (VArr (map scan_object scans))) /\
       row ∈ scans /\
       scans ≡ₚ row :: select_by_user (user_id s) (rows empty_world)) /\
    (forall s',
       user_id s' <> user_id s ->
       fst (list_route demo_env (scan_request s' "")
              (at_time 1700604800000 after_upload)) =
       fst (list_route demo_env (scan_request s' "")
              (at_time 1700604800000 empty_world))).
Proof.
  apply (uploaded_scan_is_listed demo_env demo_env (upload_request alice 2048)
           empty_world (nettle_reply "scans/alice/1700000000000-leaf.jpg")
           after_upload 1700604800000).
  vm_compute. reflexivity.
Defined.

Lemma serve_keeps_scans_witness :
  let '(replies, w') := serve demo_arrivals empty_world in
  length replies = length demo_arrivals /\
  NoDup (map scan_id (rows w')) /\
  rows empty_world `prefix_of` rows w' /\
  length (rows w') =
    (length (rows empty_world) + count_created demo_arrivals replies)%nat /\
  (forall k, is_Some (objects empty_world !! k) -> is_Some (objects w' !! k)).
Proof.
  apply (serve_keeps_scans demo_arrivals empty_world). apply empty_table_has_key.
Defined.

(** The three arrivals are answered with 200, 200 and 403, and one row is
    added. *)
Example demo_arrivals_served :
  let '(replies, w') := serve demo_arrivals empty_world in
  map (fun r => match r with Ok (Send status _) => Some status | _ => None end)
      replies = [Some 200%N; Some 200%N; Some 403%N] /\
  map scan_userId (rows w') = ["carol"] /\
  count_created demo_arrivals replies = 1%nat.
Proof. vm_compute. done. Qed.

Lemma upload_keys_do_not_collide_witness :
  upload_key alice 1700000000000 (photo 2048) <>
    upload_key carol 1700000000000 (photo 2048) /\
  upload_key alice 1700000000000 (photo 2048) <>
    upload_key alice 1700000000001 (photo 4096).
Proof.
  split.
  - apply (proj1 (upload_keys_do_not_collide alice carol 1700000000000
                    1700000000000 (photo 2048) (photo 2048) eq_refl eq_refl)).
    discriminate.
  - apply (proj2 (upload_keys_do_not_collide alice alice 1700000000000
                    1700000000001 (photo 2048) (photo 4096) eq_refl eq_refl));
      [reflexivity | reflexivity | lia].
Defined.

Lemma analysisSchema_strips_other_keys_witness :
  get "genus" nettle = VStr "Urtica" /\
  keys (analysis_object nettle_analysis) = analysis_fields /\
  (forall field, field ∈ analysis_fields ->
     get field (analysis_object nettle_analysis) = get field nettle) /\
  (forall key, key ∉ analysis_fields ->
     get key (analysis_object nettle_analysis) = VUndefined) /\
  analysisSchema (analysis_object nettle_analysis) = Some nettle_analysis.
Proof.
  split; [reflexivity|].
  apply (analysisSchema_strips_other_keys nettle nettle_analysis). reflexivity.
Defined.

Lemma oversized_upload_run :
  upload_route demo_env (upload_request alice one_byte_over) empty_world =
    (Ok (Send 413 (error_body "File too large")),
     snd (upload_route demo_env (upload_request alice one_byte_over) empty_world)).
Proof. vm_compute. reflexivity. Qed.

Lemma rejected_upload_clears_result_witness :
  let fetch := fun _ : FormFile => Responded 413 (error_body "File too large") in
  is_Some (scanResult screen_with_result) /\
  (413%N = 400%N \/ 413%N = 413%N) /\
  scanResult (analyzePlant fetch screen_with_result) = None /\
  alert (analyzePlant fetch screen_with_result) =
    Some (ErrorAlert (UploadFailed 413)) /\
  isAnalyzing (analyzePlant fetch screen_with_result) = false /\
  selectedImage (analyzePlant fetch screen_with_result) =
    Some "file:///photos/leaf.jpg".
Proof.
  intros fetch. split; [by eexists|].
  apply (rejected_upload_clears_result demo_env
           (upload_request alice one_byte_over) empty_world
           (snd (upload_route demo_env (upload_request alice one_byte_over)
                   empty_world))
           413%N (error_body "File too large") fetch screen_with_result
           "file:///photos/leaf.jpg" "alice").
  - apply oversized_upload_run.
  - discriminate.
  - reflexivity.
  - discriminate.
  - reflexivity.
  - reflexivity.
Defined.

Lemma scan_result_of_flat_analysis_witness :
  let result := scan_result_of nettle "file:///photos/leaf.jpg" in
  res_isSafeToEat result = VBool (isSafeToEat nettle_analysis) /\
  res_isSafeToTouch result = VBool (isSafeToTouch nettle_analysis) /\
  res_confidence result = VStr (confidence_text (confidence nettle_analysis)) /\
  res_warnings result = VStr (warnings nettle_analysis) /\
  res_species result =
    VStr (if bool_decide (species nettle_analysis = "") then "Unknown"
          else species nettle_analysis) /\
  res_commonName result =
    VStr (if bool_decide (commonName nettle_analysis = "") then "Unknown"
          else commonName nettle_analysis) /\
  res_description result =
    VStr (if bool_decide (description nettle_analysis = "")
          then "No description available"
          else description nettle_analysis).
Proof.
  apply (scan_result_of_flat_analysis nettle nettle_analysis
           "file:///photos/leaf.jpg").
  reflexivity.
Defined.

Lemma form_file_extension_witness :
  form_file ("file:///photos/leaf.v2" +:+ "." +:+ "jpg") =
    {| form_uri := "file:///photos/leaf.v2" +:+ "." +:+ "jpg";
       form_type := "image/" +:+ "jpg";
       form_name := "scan." +:+ "jpg" |} /\
  form_file "jpg" =
    {| form_uri := "jpg";
       form_type := "image/" +:+ "jpg";
       form_name := "scan." +:+ "jpg" |}.
Proof.
  apply (form_file_extension "file:///photos/leaf.v2" "jpg"). reflexivity.
Defined.

Lemma history_shows_own_scans_newest_first_witness :
  exists body,
    fst (list_route demo_env (bare_request alice "") history_world) =
      Ok (Send 200 body) /\
    loadScanHistory (Responded 200 (to_json pretty body)) loading_profile =
      history_loaded
        (map (row_item pretty)
           (select_by_user (user_id alice) (rows history_world)))
        loading_profile.
Proof.
  apply (history_shows_own_scans_newest_first demo_env pretty
           (bare_request alice "") history_world alice loading_profile "alice");
    reflexivity.
Defined.

(** The history of alice: her three scans, newest first. *)
Example history_of_alice :
  map item_id
    (scanHistory
       (loadScanHistory
          (match fst (list_route demo_env (bare_request alice "") history_world) with
           | Ok (Send status body) => Responded status (to_json pretty body)
           | _ => NetworkError ""
           end)
          loading_profile)) =
    [VStr (demo_uuid 3); VStr (demo_uuid 2); VStr (demo_uuid 1)].
Proof. vm_compute. reflexivity. Qed.

Lemma tab_named_inside_another_is_active_too_witness :
  isActive "/(tabs)/homepage" homepage_tab = true /\
  isActive "/(tabs)/homepage" home_tab = true /\
  activeIndex "/(tabs)/homepage" [home_tab; homepage_tab] = 0.
Proof.
  split; [reflexivity|]. split; [|reflexivity].
  apply (tab_named_inside_another_is_active_too "/(tabs)/homepage"
           home_tab homepage_tab); reflexivity.
Defined.

(** ** Two uploads under one key *)

Section SameKey.
Context {Buffer : Type} `{!BufferOps Buffer} `{!UuidSyntax} (env : Env Buffer).
Implicit Types (w : World Buffer) (s : Session).

(** X24. Two uploads under one key keep one object.  When two uploads of
    the same user with the same file name are both answered with 200 at the
    same clock reading, both rows are inserted with the same imageKey, and
    the store holds under that key the bytes of the second upload only. *)
Theorem second_upload_overwrites_same_key
    (request1 request2 : Request Buffer) w w1 w2 body1 body2 s1 s2 data1 data2 :
  upload_route env request1 w = (Ok (Send 200 body1), w1) ->
  upload_route env request2 w1 = (Ok (Send 200 body2), w2) ->
  requireAuth request1 = Some s1 -> request_file request1 = Ok (Some data1) ->
  requireAuth request2 = Some s2 -> request_file request2 = Ok (Some data2) ->
  user_id s1 = user_id s2 ->
  filename data1 = filename data2 ->
  exists key row1 row2,
    key = durable_key env s1 data1 w /\
    rows w2 = rows w ++ [row1; row2] /\
    scan_imageKey row1 = key /\
    scan_imageKey row2 = key /\
    scan_id row1 <> scan_id row2 /\
    objects w2 !! key = Some (content data2).
Proof.
  intros Hrun1 Hrun2 Hs1 Hf1 Hs2 Hf2 Huser Hname.
  destruct (upload_route_200_inv env _ _ _ _ Hrun1)
    as (s1' & d1' & a1 & Hs1' & Hf1' & Hsize1 & Hok1).
  destruct (upload_route_200_inv env _ _ _ _ Hrun2)
    as (s2' & d2' & a2 & Hs2' & Hf2' & Hsize2 & Hok2).
  rewrite Hf1 in Hf1'. injection Hf1' as <-.
  rewrite Hf2 in Hf2'. injection Hf2' as <-.
  simplify_eq.
  rewrite (upload_route_success env request1 w s1 data1 a1) in Hrun1 by done.
  injection Hrun1 as _ <-.
  rewrite (upload_route_success env request2 _ s2 data2 a2) in Hrun2 by done.
  injection Hrun2 as _ <-.
  assert (durable_key env s2 data2
            {| objects := <[durable_key env s1 data1 w := content data1]> (objects w);
               rows := rows w ++ [inserted_row env s1 data1 w a1];
               now := now w;
               trace := trace w ++ successful_upload_events env s1 data1 w a1 |}
          = durable_key env s1 data1 w) as Hsame.
  { unfold durable_key, requested_key, upload_key. simpl. by rewrite Huser, Hname. }
  eexists _, (inserted_row env s1 data1 w a1), _.
  split; [reflexivity|]. simpl.
  split; [by rewrite <- app_assoc|].
  split; [reflexivity|]. split; [exact Hsame|]. split.
  - destruct Hok2 as (_ & _ & _ & _ & _ & Hfresh). simpl in Hfresh.
    intros Heq. apply Hfresh. rewrite map_app. apply elem_of_app. right.
    apply list_elem_of_singleton. symmetry. exact Heq.
  - rewrite Hsame. apply lookup_insert_eq.
Qed.
End SameKey.

Lemma second_upload_run :
  upload_route demo_env (upload_request alice 4096) after_upload =
    (Ok (Send 200 second_reply), after_second_upload).
Proof. vm_compute. reflexivity. Qed.

Lemma second_upload_overwrites_same_key_witness :
  exists key row1 row2,
    key = durable_key demo_env alice (photo 2048) empty_world /\
    rows after_second_upload = rows empty_world ++ [row1; row2] /\
    scan_imageKey row1 = key /\
    scan_imageKey row2 = key /\
    scan_id row1 <> scan_id row2 /\
    objects after_second_upload !! key = Some (content (photo 4096)).
Proof.
  apply (second_upload_overwrites_same_key demo_env
           (upload_request alice 2048) (upload_request alice 4096)
           empty_world after_upload after_second_upload
           (nettle_reply "scans/alice/1700000000000-leaf.jpg") second_reply
           alice alice (photo 2048) (photo 4096)
           demo_upload_run second_upload_run);
    reflexivity.
Defined.

Lemma reset_during_upload_leaves_result_witness :
  in_flight (screen_run (Some "alice") picked_and_tapped) !! 0%nat =
    Some {| posted := form_file "file:///photos/leaf.jpg";
            kept_image := "file:///photos/leaf.jpg" |} /\
  (let st := screen_run (Some "alice")
               (picked_and_tapped ++
                [ResetTapped; UploadAnswered 0 (Responded 200 nettle)]) in
   selectedImage (shown st) = None /\
   scanResult (shown st) = Some (scan_result_of nettle "file:///photos/leaf.jpg")) /\
  (forall other,
     let st := screen_run (Some "alice")
                 (picked_and_tapped ++
                  [ResetTapped; ImagePicked (Picked other);
                   UploadAnswered 0 (Responded 200 nettle)]) in
     selectedImage (shown st) = Some other /\
     scanResult (shown st) = Some (scan_result_of nettle "file:///photos/leaf.jpg")).
Proof.
  split; [reflexivity|].
  apply (reset_during_upload_leaves_result (Some "alice") picked_and_tapped 0
           {| posted := form_file "file:///photos/leaf.jpg";
              kept_image := "file:///photos/leaf.jpg" |} 200%N nettle);
    [reflexivity | reflexivity | discriminate | discriminate].
Defined.
